(** * World vaccination coverage ETL: a shallow embedding of
      [etl_pipeline.py] (and of the copies of its functions kept in
      [streamlit_app.py]) and the properties its specification states.

    Layout: the data model and the operations first (configuration, frames,
    the transform, the SQLite store, the comparator, the batch entry point),
    then sanity examples, helper lemmas and the theorems. *)

From Stdlib Require Import String Ascii List ZArith QArith Bool Lia.
From Stdlib Require Import Permutation Sorted OrdersEx.
From Stdlib Require Import PrimFloat SpecFloat FloatOps Uint63.
Import ListNotations.

Local Open Scope string_scope.
Local Open Scope list_scope.
Local Open Scope Z_scope.

(* Decimal literals such as 0.95 denote the nearest binary64 value, as they
   do in Python. *)
Set Warnings "-inexact-float".

(* ===================================================================== *)
(** * Configuration (etl_pipeline.py, lines 24-31) *)
(* ===================================================================== *)

Definition DB_PATH : string := "vaccination.db".
Definition TABLE_RAW : string := "owid_raw".
Definition TABLE_CLEAN : string := "immunization".

(** The marker the coverage columns of the OWID file start with
    (the literal of [c.startswith("coverage__")], line 56). *)
Definition COVERAGE_PREFIX : string := "coverage__".

(* ===================================================================== *)
(** * Errors and the state-and-error monad of the scripts *)
(* ===================================================================== *)

(** The exceptions the modelled calls can raise, named by their cause. *)
Inductive error : Type :=
| UniqueViolation
    (* "UNIQUE constraint failed": sqlite3.IntegrityError, which pandas
       hands on as it is or wrapped in pandas.errors.DatabaseError *)
| NoSuchTable
    (* "no such table": the pandas.errors.DatabaseError that
       [pd.read_sql_query] raises around sqlite3.OperationalError *)
| TableExists
    (* "table ... already exists": sqlite3.OperationalError of CREATE *)
| RawWriteError
    (* whatever [df.to_sql(TABLE_RAW, ...)] raises: a duplicate column
       name (SQLite compares names without case), too many columns, an
       integer that does not fit 64 bits, ... *)
| FileWriteError
    (* the OSError of [to_csv] or [savefig] *)
| FetchError
    (* what [requests.get] or [raise_for_status] raises: no connection, a
       timeout, a status that is not a success *)
| ParseError
    (* what [pd.read_csv] raises on bytes that are not a CSV table *)
| KeyError.
    (* [melt] on a frame without column "Entity" or "Year" *)

Inductive result (A : Type) : Type :=
| Ok (a : A)
| Err (e : error).
Arguments Ok {A} a.
Arguments Err {A} e.

(* ===================================================================== *)
(** * Frames: what [pd.read_csv] hands to the transform *)
(* ===================================================================== *)

(** One row of the wide OWID frame.  [Entity] and [Year] are the two
    identifier columns the melt names; an empty field is read as a missing
    value ([None]).  [cells] holds the remaining columns, aligned with
    [columns] of the frame; a float column marks a missing value by NaN. *)
Record RawRecord : Type := {
  Entity : option string;
  Year   : option Z;
  cells  : list float
}.

(** The frame [df]: the labels of the columns other than [Entity] and
    [Year], in file order, and the rows.  Only the numeric columns are kept:
    a text column of the file (OWID's [Code]) is read by no step below. *)
Record DataFrame : Type := {
  columns : list string;
  rows    : list RawRecord
}.

(** Position of a label among the columns ([df.columns.get_loc]). *)
Fixpoint index_of (c : string) (cols : list string) : option nat :=
  match cols with
  | [] => None
  | x :: xs => if String.eqb c x then Some O else option_map S (index_of c xs)
  end.

(** [df[c]] at one row: the cell under label [c]; a row shorter than the
    header is padded with NaN, as [read_csv] does. *)
Definition cell (df : DataFrame) (row : RawRecord) (c : string) : float :=
  match index_of c (columns df) with
  | Some i => nth i (cells row) nan
  | None => nan
  end.

(** [str.startswith]. *)
Definition startswith (s p : string) : bool := String.prefix p s.

(** Line 56: [[c for c in df.columns if c.startswith("coverage__")]]. *)
Definition coverage_cols (df : DataFrame) : list string :=
  filter (fun c => startswith c COVERAGE_PREFIX) (columns df).

(* ===================================================================== *)
(** * The transform (run_etl, lines 56-64) *)
(* ===================================================================== *)

(** A row of the melted frame: the two identifier cells, the label of the
    value column (column [antigen]) and the cell (column [coverage_pct]). *)
Record MeltedRow : Type := {
  m_Entity       : option string;
  m_Year         : option Z;
  m_antigen      : string;
  m_coverage_pct : float
}.

(** [df.melt(id_vars=["Entity","Year"], value_vars=..., var_name="antigen",
    value_name="coverage_pct")]: for every value column in turn, one row per
    row of the frame; the [antigen] cell is the column label as it is. *)
Definition melt (df : DataFrame) (value_vars : list string) : list MeltedRow :=
  flat_map
    (fun c =>
       map (fun row =>
              {| m_Entity := Entity row;
                 m_Year := Year row;
                 m_antigen := c;
                 m_coverage_pct := cell df row c |})
           (rows df))
    value_vars.

(** A melted row that survived [dropna]: no cell is missing any more. *)
Record TidyRow : Type := {
  t_Entity       : string;
  t_Year         : Z;
  t_antigen      : string;
  t_coverage_pct : float
}.

(** [.dropna()] without a [subset]: a row goes as soon as ANY of its four
    cells is missing. *)
Definition dropna_row (m : MeltedRow) : option TidyRow :=
  match m_Entity m, m_Year m with
  | Some e, Some y =>
      if is_nan (m_coverage_pct m) then None
      else Some {| t_Entity := e; t_Year := y;
                   t_antigen := m_antigen m;
                   t_coverage_pct := m_coverage_pct m |}
  | _, _ => None
  end.

Fixpoint dropna (ms : list MeltedRow) : list TidyRow :=
  match ms with
  | [] => []
  | m :: ms' =>
      match dropna_row m with
      | Some t => t :: dropna ms'
      | None => dropna ms'
      end
  end.

(** A row of the tidy frame and of table [immunization]. *)
Record CoverageRecord : Type := {
  country      : string;
  antigen      : string;
  year         : Z;
  coverage_pct : float
}.

(** Line 63: [rename(columns={"Entity": "country", "Year": "year"})]. *)
Definition rename (t : TidyRow) : CoverageRecord :=
  {| country := t_Entity t;
     antigen := t_antigen t;
     year := t_Year t;
     coverage_pct := t_coverage_pct t |}.

(** [Series.between(left, right)], both ends inclusive. *)
Definition between (y left right : Z) : bool := (left <=? y) && (y <=? right).

(** Lines 57-64 after the melt: dropna, rename, the year filter. *)
Definition tidy (ms : list MeltedRow) : list CoverageRecord :=
  filter (fun r => between (year r) 1980 2100) (map rename (dropna ms)).

(** Lines 56-64: the frame [df_tidy] computed from [df]. *)
Definition transform (df : DataFrame) : list CoverageRecord :=
  tidy (melt df (coverage_cols df)).

(* ===================================================================== *)
(** * The world the scripts act on: database, working directory, console *)
(* ===================================================================== *)

(** The series read back for one (country, antigen): columns [year] and
    [coverage_pct]. *)
Definition Series : Type := list (Z * float).

(** What is written to the working directory. *)
Inductive Artifact : Type :=
| CsvFile (series : Series)
    (* [series.to_csv(path, index=False)] *)
| PlotFile (title_country title_antigen : string) (series : Series)
           (start_year pre_years post_years : Z).
    (* the figure of lines 146-160 *)

(** The statistics of one comparison (lines 126-134). *)
Record ComparisonResult : Type := {
  t_stat     : float;
  p_val      : float;
  ci_before  : float * float;
  ci_after   : float * float;
  avg_before : float;
  avg_after  : float;
  diff       : float
}.

(** What the scripts print. *)
Inductive Message : Type :=
| MsgExtract | MsgTransform | MsgLoad | MsgEtlComplete      (* lines 50-88 *)
| MsgNoData (country antigen : string)                      (* line 110 *)
| MsgAnalysis (country antigen : string)
              (before_from before_to after_from after_to : Z) (* 122-123 *)
| MsgStatistics (r : ComparisonResult)                      (* 127-138 *)
| MsgSavedCsv (path : string)                               (* line 143 *)
| MsgSavedPlot (path : string)                              (* line 161 *)
| MsgNotEnoughData.                                         (* line 164 *)

(** The SQLite file: each table is absent ([None]) or holds its rows in
    insertion (rowid) order. *)
Record DB : Type := {
  owid_raw     : option DataFrame;
  immunization : option (list CoverageRecord)
}.

(** How the write of the raw table (line 70) ends for a frame: it goes
    through, or it raises; after a failure table [owid_raw] is as it was
    ([RawFails None]) or in the state the failed call left ([RawFails (Some
    t)]: dropped, or created and empty). *)
Inductive RawWrite : Type :=
| RawWritten
| RawFails (remains : option (option DataFrame)).

(** What the scripts do not decide themselves: whether pandas and SQLite
    accept a frame as table [owid_raw], and whether the working directory
    accepts a file name (a name with a path separator, or too long a name,
    is refused: only spaces are replaced in the names). *)
Record Environment : Type := {
  raw_write     : DataFrame -> RawWrite;
  file_writable : string -> bool
}.

Record World : Type := {
  env     : Environment;
  db      : DB;
  files   : list (string * Artifact);
  console : list Message
}.

(** A command: it reads and changes the world, and returns or raises. *)
Definition M (A : Type) : Type := World -> result A * World.

Definition ret {A : Type} (a : A) : M A := fun w => (Ok a, w).

Definition raise {A : Type} (e : error) : M A := fun w => (Err e, w).

Definition bind {A B : Type} (m : M A) (f : A -> M B) : M B :=
  fun w =>
    match m w with
    | (Ok a, w') => f a w'
    | (Err e, w') => (Err e, w')
    end.

Declare Scope cmd_scope.
Delimit Scope cmd_scope with cmd.
Notation "x <- c ;; k" := (bind c (fun x => k))
  (at level 61, c at next level, right associativity) : cmd_scope.
Notation "c ;; k" := (bind c (fun _ => k))
  (at level 61, right associativity) : cmd_scope.
Local Open Scope cmd_scope.

Definition get_db : M DB := fun w => (Ok (db w), w).

Definition get_env : M Environment := fun w => (Ok (env w), w).

Definition put_db (d : DB) : M unit :=
  fun w => (Ok tt, {| env := env w; db := d; files := files w;
                      console := console w |}).

(** [print(...)]: a line more on the console. *)
Definition print (m : Message) : M unit :=
  fun w => (Ok tt, {| env := env w; db := db w; files := files w;
                      console := console w ++ [m] |}).

(** Writing a file replaces the file of that name, if any; a name the
    working directory refuses raises and writes nothing. *)
Definition write_file (path : string) (a : Artifact) : M unit :=
  fun w =>
    if file_writable (env w) path then
      (Ok tt,
       {| env := env w;
          db := db w;
          files := (path, a)
                   :: filter (fun f => negb (String.eqb (fst f) path))
                        (files w);
          console := console w |})
    else (Err FileWriteError, w).

Definition read_file (path : string) (w : World) : option Artifact :=
  option_map snd (find (fun f => String.eqb (fst f) path) (files w)).

(* ===================================================================== *)
(** * The store (run_etl, lines 67-86) *)
(* ===================================================================== *)

(** Line 70: [df.to_sql(TABLE_RAW, conn, if_exists="replace")].  When the
    call raises, table [immunization] has not been touched yet. *)
Definition to_sql_replace_raw (df : DataFrame) : M unit :=
  d <- get_db ;;
  e <- get_env ;;
  match raw_write e df with
  | RawWritten =>
      put_db {| owid_raw := Some df; immunization := immunization d |}
  | RawFails remains =>
      put_db {| owid_raw := match remains with
                            | Some t => t
                            | None => owid_raw d
                            end;
                immunization := immunization d |} ;;
      raise RawWriteError
  end.

(** Line 72: [DROP TABLE IF EXISTS immunization]. *)
Definition drop_table_if_exists : M unit :=
  d <- get_db ;;
  put_db {| owid_raw := owid_raw d; immunization := None |}.

(** Lines 73-83: [CREATE TABLE immunization (..., PRIMARY KEY (country,
    antigen, year))]; it fails on a table that exists. *)
Definition create_table : M unit :=
  d <- get_db ;;
  match immunization d with
  | Some _ => raise TableExists
  | None => put_db {| owid_raw := owid_raw d; immunization := Some [] |}
  end.

(** The primary key of a row. *)
Definition key (r : CoverageRecord) : string * string * Z :=
  (country r, antigen r, year r).

Definition same_key (a b : CoverageRecord) : bool :=
  String.eqb (country a) (country b)
  && String.eqb (antigen a) (antigen b)
  && (year a =? year b).

(** The INSERTs of one [to_sql]: a row whose key is already in the table
    (stored before, or earlier in the same batch) violates the primary key. *)
Fixpoint insert_rows (rs : list CoverageRecord) (table : list CoverageRecord)
  : result (list CoverageRecord) :=
  match rs with
  | [] => Ok table
  | r :: rs' =>
      if existsb (same_key r) table then Err UniqueViolation
      else insert_rows rs' (table ++ [r])
  end.

(** Line 84: [df_tidy.to_sql(TABLE_CLEAN, conn, if_exists="append")].  The
    inserts run in one transaction: when one fails the table is left as it
    was and the exception propagates. *)
Definition to_sql_append (rs : list CoverageRecord) : M unit :=
  d <- get_db ;;
  match immunization d with
  | None => raise NoSuchTable
  | Some table =>
      match insert_rows rs table with
      | Ok table' =>
          put_db {| owid_raw := owid_raw d; immunization := Some table' |}
      | Err e => raise e
      end
  end.

(** Lines 72-84, the load of the normalized table: drop, create, insert. *)
Definition loadCoverage (table : list CoverageRecord) : M unit :=
  drop_table_if_exists ;;
  create_table ;;
  to_sql_append table.

(** What lines 51-53 and the presence of the identifier columns make of
    the upstream resource. *)
Inductive Download : Type :=
| FetchFailed                 (* lines 51-52 raise *)
| Unparsable                  (* line 53 raises *)
| NoIdColumns                 (* the frame lacks "Entity" or "Year" *)
| Parsed (df : DataFrame).

(** [run_etl] (lines 49-89) from the parsed download [df] on. *)
Definition run_etl (df : DataFrame) : M bool :=
  print MsgExtract ;;
  print MsgTransform ;;
  let df_tidy := transform df in
  print MsgLoad ;;
  to_sql_replace_raw df ;;
  drop_table_if_exists ;;
  create_table ;;
  to_sql_append df_tidy ;;
  print MsgEtlComplete ;;
  ret true.

(** [run_etl] (lines 49-89) from the request on: nothing touches the
    database before line 67. *)
Definition run_etl_from (d : Download) : M bool :=
  print MsgExtract ;;
  match d with
  | FetchFailed => raise FetchError
  | Unparsable => raise ParseError
  | NoIdColumns => print MsgTransform ;; raise KeyError
  | Parsed df =>
      print MsgTransform ;;
      let df_tidy := transform df in
      print MsgLoad ;;
      to_sql_replace_raw df ;;
      drop_table_if_exists ;;
      create_table ;;
      to_sql_append df_tidy ;;
      print MsgEtlComplete ;;
      ret true
  end.

(* ===================================================================== *)
(** * Reading a series back (run_analysis, lines 98-107) *)
(* ===================================================================== *)

(** [ORDER BY year]: a stable insertion sort on the year. *)
Fixpoint insert_by_year (o : Z * float) (s : Series) : Series :=
  match s with
  | [] => [o]
  | x :: s' =>
      if fst o <=? fst x then o :: x :: s' else x :: insert_by_year o s'
  end.

Definition sort_by_year (s : Series) : Series :=
  fold_right insert_by_year [] s.

(** [WHERE country = ? AND antigen = ?]. *)
Definition matches (c a : string) (r : CoverageRecord) : bool :=
  String.eqb (country r) c && String.eqb (antigen r) a.

(** A value as a REAL column hands it back: SQLite keeps a float that is
    a whole number as an integer, so a zero comes back as +0.0 whatever its
    sign; every other value, and the missing value, comes back as it went
    in. *)
Definition sqlite_real (v : float) : float :=
  if (0 =? v)%float then 0%float else v.

(** The columns [year], [coverage_pct] of a row as a query returns them. *)
Definition stored_observation (r : CoverageRecord) : Z * float :=
  (year r, sqlite_real (coverage_pct r)).

(** [SELECT year, coverage_pct FROM immunization WHERE country = ? AND
    antigen = ? ORDER BY year] over the rows of the table. *)
Definition select_series (c a : string) (table : list CoverageRecord) : Series :=
  sort_by_year (map stored_observation (filter (matches c a) table)).

(** [pd.read_sql_query] of lines 98-107; a missing table is an error. *)
Definition queryCoverage (c a : string) : M Series :=
  d <- get_db ;;
  match immunization d with
  | None => raise NoSuchTable
  | Some table => ret (select_series c a table)
  end.

(* ===================================================================== *)
(** * The comparator (mean_ci, lines 37-43; run_analysis, lines 113-138) *)
(* ===================================================================== *)

(** [len(...)] as a float. *)
Definition float_of_nat (n : nat) : float :=
  PrimFloat.of_uint63 (Uint63.of_Z (Z.of_nat n)).

(** numpy's pairwise summation of a float64 array, as [ndarray.sum] runs
    it.  Fewer than 8 values are added left to right. *)
Definition sum_small (l : list float) : float :=
  fold_left PrimFloat.add l neg_zero.

(** The 8 partial sums of the unrolled loop. *)
Inductive acc8 : Type :=
| Acc8 (r0 r1 r2 r3 r4 r5 r6 r7 : float).

(** Each full group of 8 values is added to the 8 partial sums; what is
    left over (fewer than 8 values) is returned with them. *)
Fixpoint add_groups (r : acc8) (l : list float) : acc8 * list float :=
  match l with
  | a0 :: a1 :: a2 :: a3 :: a4 :: a5 :: a6 :: a7 :: l' =>
      let '(Acc8 r0 r1 r2 r3 r4 r5 r6 r7) := r in
      add_groups (Acc8 (r0 + a0) (r1 + a1) (r2 + a2) (r3 + a3)
                       (r4 + a4) (r5 + a5) (r6 + a6) (r7 + a7))%float l'
  | _ => (r, l)
  end.

(** From 8 to 128 values: 8 interleaved partial sums, combined pairwise,
    then the values left over one by one. *)
Definition sum_block (l : list float) : float :=
  match l with
  | a0 :: a1 :: a2 :: a3 :: a4 :: a5 :: a6 :: a7 :: l' =>
      let '(Acc8 r0 r1 r2 r3 r4 r5 r6 r7, rest) :=
        add_groups (Acc8 a0 a1 a2 a3 a4 a5 a6 a7) l' in
      fold_left PrimFloat.add rest
        (((r0 + r1) + (r2 + r3)) + ((r4 + r5) + (r6 + r7)))%float
  | _ => sum_small l
  end.

(** More than 128 values: the array is cut in two, the first part of
    [n / 2] values rounded down to a multiple of 8, and the two sums are
    added.  [fuel] bounds the depth of the cuts; the length of the list is
    more than enough (lemma [pairwise_sum_fuel]). *)
Fixpoint pairwise_sum (fuel : nat) (l : list float) : float :=
  let n := List.length l in
  if (n <? 8)%nat then sum_small l
  else if (n <=? 128)%nat then sum_block l
  else
    match fuel with
    | O => sum_block l
    | S fuel' =>
        let n2 := (n / 2 - (n / 2) mod 8)%nat in
        (pairwise_sum fuel' (firstn n2 l)
         + pairwise_sum fuel' (skipn n2 l))%float
    end.

(** [ndarray.sum()] of a float64 array: an empty sum is 0; otherwise the
    reduction starts from -0.0, the identity of [add] that keeps the sign of
    a sum of negative zeros. *)
Definition np_sum (l : list float) : float :=
  match l with
  | [] => 0%float
  | _ :: _ => (neg_zero + pairwise_sum (List.length l) l)%float
  end.

(** [Series.mean()] (which [np.mean] of a Series calls): missing values are
    skipped (they count as 0 in the sum), the others are summed by numpy and
    divided by their number; no value at all gives NaN. *)
Definition mean (vals : list float) : float :=
  let filled := map (fun v => if is_nan v then 0%float else v) vals in
  let count := List.length (filter (fun v => negb (is_nan v)) vals) in
  match count with
  | O => nan
  | _ => (np_sum filled / float_of_nat count)%float
  end.

(** Lines 113-116: the rows of the before window, then their
    [coverage_pct] column. *)
Definition before_rows (series : Series) (start_year pre_years : Z) : Series :=
  filter (fun o => (start_year - pre_years <=? fst o)
                   && (fst o <=? start_year - 1)) series.

Definition before_vals (series : Series) (start_year pre_years : Z)
  : list float := map snd (before_rows series start_year pre_years).

(** Lines 117-120: the after window. *)
Definition after_rows (series : Series) (start_year post_years : Z) : Series :=
  filter (fun o => (start_year <=? fst o)
                   && (fst o <=? start_year + post_years)) series.

Definition after_vals (series : Series) (start_year post_years : Z)
  : list float := map snd (after_rows series start_year post_years).

(** The outcome of one comparison. *)
Inductive Comparison : Type :=
| Computed (r : ComparisonResult)
| InsufficientData.

(** [str.replace(old, new)] for one-character [old] and [new]. *)
Fixpoint replace (old new : ascii) (s : string) : string :=
  match s with
  | EmptyString => EmptyString
  | String ch s' =>
      String (if Ascii.eqb ch old then new else ch) (replace old new s')
  end.

(** Line 141: [f"coverage_{country}_{antigen}.csv".replace(" ", "_")]. *)
Definition out_csv (country antigen : string) : string :=
  replace " " "_"
    (String.append "coverage_"
       (String.append country
          (String.append "_" (String.append antigen ".csv")))).

(** Line 159: [f"plot_{country}_{antigen}.png".replace(" ", "_")]. *)
Definition out_png (country antigen : string) : string :=
  replace " " "_"
    (String.append "plot_"
       (String.append country
          (String.append "_" (String.append antigen ".png")))).

(** The command-line arguments (lines 173-179). *)
Record Args : Type := {
  arg_country    : option string;
  arg_antigen    : option string;
  arg_start_year : Z;
  arg_pre_years  : Z;
  arg_post_years : Z
}.

(** Truth value of an optional string argument: [None] and [""] are false. *)
Definition truthy (o : option string) : bool :=
  match o with
  | Some s => negb (String.eqb s "")
  | None => false
  end.

Section Comparator.

(** The three routines of [scipy.stats] the scripts call; their values are
    not computed here. *)
Variable ttest_ind : list float -> list float -> float * float.
    (* [ttest_ind(a, b, equal_var=False)]: (t-statistic, p-value) *)
Variable sem : list float -> float.
    (* [sem(data, nan_policy="omit")] *)
Variable t_ppf : float -> Z -> float.
    (* [t.ppf(q, df)] *)

(** [mean_ci] (lines 37-43; the same text in streamlit_app.py, 38-44). *)
Definition mean_ci (data : list float) (confidence : float)
  : float * float :=
  if (List.length data <? 2)%nat then (nan, nan)
  else
    let mean := mean data in
    let se := sem data in
    let h := (se * t_ppf ((1 + confidence) / 2)
                         (Z.of_nat (List.length data) - 1))%float in
    ((mean - h)%float, (mean + h)%float).

(** Lines 126-134: the statistics of two windows. *)
Definition statistics (before_vals after_vals : list float)
  : ComparisonResult :=
  let '(t_stat, p_val) := ttest_ind before_vals after_vals in
  let ci_before := mean_ci before_vals 0.95 in
  let ci_after := mean_ci after_vals 0.95 in
  let avg_before := mean before_vals in
  let avg_after := mean after_vals in
  let diff := (avg_after - avg_before)%float in
  {| t_stat := t_stat; p_val := p_val;
     ci_before := ci_before; ci_after := ci_after;
     avg_before := avg_before; avg_after := avg_after; diff := diff |}.

(** The comparison of lines 113-138 (streamlit_app.py, 204-238) as a
    function of the series: the two windows, the gate of line 125 and the
    statistics. *)
Definition compare (series : Series) (start_year pre_years post_years : Z)
  : Comparison :=
  let before_vals := before_vals series start_year pre_years in
  let after_vals := after_vals series start_year post_years in
  if (1 <? List.length before_vals)%nat && (1 <? List.length after_vals)%nat
  then Computed (statistics before_vals after_vals)
  else InsufficientData.

(** [run_analysis] (lines 95-166). *)
Definition run_analysis (country antigen : string)
           (start_year pre_years post_years : Z) : M unit :=
  series <- queryCoverage country antigen ;;
  match series with
  | [] => print (MsgNoData country antigen)
  | _ :: _ =>
      let before_vals := before_vals series start_year pre_years in
      let after_vals := after_vals series start_year post_years in
      print (MsgAnalysis country antigen
               (start_year - pre_years) (start_year - 1)
               start_year (start_year + post_years)) ;;
      if (1 <? List.length before_vals)%nat
         && (1 <? List.length after_vals)%nat
      then
        print (MsgStatistics (statistics before_vals after_vals)) ;;
        write_file (out_csv country antigen) (CsvFile series) ;;
        print (MsgSavedCsv (out_csv country antigen)) ;;
        write_file (out_png country antigen)
          (PlotFile country antigen series
             start_year pre_years post_years) ;;
        print (MsgSavedPlot (out_png country antigen))
      else
        print MsgNotEnoughData
  end.

(** The batch entry point (lines 172-184) from the parsed download on. *)
Definition main (args : Args) (df : DataFrame) : M unit :=
  run_etl df ;;
  match arg_country args, arg_antigen args with
  | Some c, Some a =>
      if truthy (arg_country args) && truthy (arg_antigen args)
      then run_analysis c a (arg_start_year args)
                        (arg_pre_years args) (arg_post_years args)
      else ret tt
  | _, _ => ret tt
  end.

End Comparator.

(* ===================================================================== *)
(** * The dashboard (streamlit_app.py) *)
(* ===================================================================== *)

(** [sorted(...)] and SQL's [ORDER BY], for any comparison: a stable
    insertion sort. *)
Fixpoint insert_sorted {A : Type} (leb : A -> A -> bool) (x : A) (l : list A)
  : list A :=
  match l with
  | [] => [x]
  | y :: l' => if leb x y then x :: y :: l' else y :: insert_sorted leb x l'
  end.

Definition sort_with {A : Type} (leb : A -> A -> bool) (l : list A) : list A :=
  fold_right (insert_sorted leb) [] l.

(** [Series.unique()] and SQL's [DISTINCT]: each value once, in the order
    of first appearance. *)
Fixpoint distinct {A : Type} (eqb : A -> A -> bool) (l : list A) : list A :=
  match l with
  | [] => []
  | x :: l' => x :: filter (fun y => negb (eqb x y)) (distinct eqb l')
  end.

(** [sorted] of a list of [str]. *)
Definition sorted (l : list string) : list string := sort_with String.leb l.

(** [unique] of a column of [str]. *)
Definition unique (l : list string) : list string := distinct String.eqb l.

Definition pair_eqb (p q : string * string) : bool :=
  String.eqb (fst p) (fst q) && String.eqb (snd p) (snd q).

(** [ORDER BY country, antigen]: by country, then by antigen. *)
Definition pair_leb (p q : string * string) : bool :=
  match String.compare (fst p) (fst q) with
  | Lt => true
  | Gt => false
  | Eq => String.leb (snd p) (snd q)
  end.

(** Lines 130-132: [SELECT DISTINCT country, antigen FROM immunization
    ORDER BY country, antigen] over the rows of the table. *)
Definition select_distinct_pairs (table : list CoverageRecord)
  : list (string * string) :=
  sort_with pair_leb
    (distinct pair_eqb (map (fun r => (country r, antigen r)) table)).

Definition queryDistinctPairs : M (list (string * string)) :=
  d <- get_db ;;
  match immunization d with
  | None => raise NoSuchTable
  | Some table => ret (select_distinct_pairs table)
  end.

(** Line 133: [sorted(df_meta["country"].unique())]. *)
Definition countries (df_meta : list (string * string)) : list string :=
  sorted (unique (map fst df_meta)).

(** Line 135: [countries.index("India") if "India" in countries else 0]. *)
Definition default_country_index (countries : list string) : nat :=
  if existsb (String.eqb "India") countries
  then match index_of "India" countries with
       | Some i => i
       | None => O
       end
  else O.

(** Line 138: [sorted(df_meta[df_meta["country"] == country]["antigen"]
    .unique())]; [country] is what the first select box returned, [None]
    when it had nothing to offer. *)
Definition antigens (df_meta : list (string * string))
           (country : option string) : list string :=
  match country with
  | Some c =>
      sorted (unique (map snd (filter (fun p => String.eqb (fst p) c) df_meta)))
  | None => []
  end.

(** Lines 141-150: the series of the two selections; a [None] parameter is
    bound as NULL, which no row equals. *)
Definition dashboard_series (table : list CoverageRecord)
           (country antigen : option string) : Series :=
  match country, antigen with
  | Some c, Some a => select_series c a table
  | _, _ => []
  end.

(** Line 280: [f"{country}_{antigen}_coverage.csv".replace(" ", "_")]. *)
Definition download_name (country antigen : string) : string :=
  replace " " "_"
    (String.append country
       (String.append "_" (String.append antigen "_coverage.csv"))).

(** Line 31: [chr(0x1F1E6 + ord(c) - ord('A'))], as a code point. *)
Definition regional_indicator (c : ascii) : Z :=
  0x1F1E6 + Z.of_N (N_of_ascii c) - Z.of_N (N_of_ascii "A").

(** Line 33: the white flag, U+1F3F3 U+FE0F. *)
Definition WHITE_FLAG : list Z := [0x1F3F3; 0xFE0F].

(** What the page shows, top to bottom (lines 155-282). *)
Inductive Widget : Type :=
| WCountry (country : string) (flag : list Z)                  (* line 156 *)
| WSubheader (text : string)
| WCoverageChart (country antigen : string) (series : Series)
                 (campaign_start pre_years post_years : Z)     (* 160-198 *)
| WTStatistic (t : float)                                      (* line 213 *)
| WPValue (p : float)                                          (* line 214 *)
| WSignificant                                                 (* 218-222 *)
| WNotSignificant                                              (* 224-227 *)
| WBarChart (avg_before avg_after : float)
            (ci_before ci_after : float * float)               (* 240-259 *)
| WIncreased (diff : float)                                    (* line 263 *)
| WDecreased (diff : float)                                    (* line 265 *)
| WNotEnough                                                   (* line 268 *)
| WRawData (series : Series)                                   (* line 274 *)
| WDownload (file_name : string) (series : Series).            (* 276-282 *)

Section Dashboard.

Variable ttest_ind : list float -> list float -> float * float.
Variable sem : list float -> float.
Variable t_ppf : float -> Z -> float.

(** [pycountry.countries.lookup(name).alpha_2]; [None] when the lookup
    raises. *)
Variable lookup_alpha_2 : string -> option string.

(** [country_to_flag] (lines 28-33). *)
Definition country_to_flag (country_name : string) : list Z :=
  match lookup_alpha_2 country_name with
  | Some alpha_2 => map regional_indicator (list_ascii_of_string alpha_2)
  | None => WHITE_FLAG
  end.

(** Lines 203-268: the statistics block of the page. *)
Definition statistics_block (series : Series)
           (campaign_start pre_years post_years : Z) : list Widget :=
  let before_vals := before_vals series campaign_start pre_years in
  let after_vals := after_vals series campaign_start post_years in
  if (1 <? List.length before_vals)%nat && (1 <? List.length after_vals)%nat
  then
    let r := statistics ttest_ind sem t_ppf before_vals after_vals in
    [ WTStatistic (t_stat r);
      WPValue (p_val r);
      (if (p_val r <? 0.05)%float then WSignificant else WNotSignificant);
      WSubheader "Average Coverage Before vs After (with 95% CI)";
      WBarChart (avg_before r) (avg_after r) (ci_before r) (ci_after r);
      (if (0 <=? diff r)%float then WIncreased (diff r)
       else WDecreased (abs (diff r))) ]
  else [ WNotEnough ].

(** Lines 155-282: the page for the selected country and antigen. *)
Definition render (country antigen : string) (series : Series)
           (campaign_start pre_years post_years : Z) : list Widget :=
  match series with
  | [] => []
  | _ :: _ =>
      [ WCountry country (country_to_flag country);
        WSubheader "Coverage Over Time (Interactive)";
        WCoverageChart country antigen series
                       campaign_start pre_years post_years;
        WSubheader "Statistical Test (t-test)" ]
      ++ statistics_block series campaign_start pre_years post_years
      ++ [ WSubheader "Raw Data";
           WRawData series;
           WDownload (download_name country antigen) series ]
  end.

End Dashboard.

(** [run_etl] as streamlit_app.py defines it again (lines 49-82): the same
    steps, nothing printed. *)
Definition st_run_etl (df : DataFrame) : M bool :=
  let df_tidy := transform df in
  to_sql_replace_raw df ;;
  drop_table_if_exists ;;
  create_table ;;
  to_sql_append df_tidy ;;
  ret true.

(* ===================================================================== *)
(** * Notions of the specification, and sample data *)
(* ===================================================================== *)

(** "The column name with the fixed prefix removed", in the words of the
    specification: [str.removeprefix]. *)
Definition removeprefix (p s : string) : string :=
  if String.prefix p s
  then substring (String.length p) (String.length s - String.length p) s
  else s.

(** The specification's reading of the antigen column: every emitted record
    carries the label of a coverage column with the prefix removed. *)
Definition antigen_is_stripped_label (df : DataFrame) : Prop :=
  forall r, In r (transform df) ->
    exists c, In c (coverage_cols df) /\
              antigen r = removeprefix COVERAGE_PREFIX c.

(** The specification's reading of the drop rule: a (row, coverage
    column) pair whose value is not missing and whose year is within
    1980..2100 has its record in the tidy frame. *)
Definition dropped_only_for_null_value (df : DataFrame) : Prop :=
  forall row c y,
    In row (rows df) -> In c (coverage_cols df) ->
    Year row = Some y -> 1980 <= y <= 2100 ->
    is_nan (cell df row c) = false ->
    exists r, In r (transform df) /\ antigen r = c /\ year r = y /\
              coverage_pct r = cell df row c.

(** Ascending, and strictly ascending, order of the years of a series. *)
Definition le_year (o1 o2 : Z * float) : Prop := fst o1 <= fst o2.
Definition lt_year (o1 o2 : Z * float) : Prop := fst o1 < fst o2.

(** The specification's reading of the round trip: what the query
    returns after the load is exactly what the table holds for the pair. *)
Definition query_returns_the_pairs_held
           (table : list CoverageRecord) (c a : string) : Prop :=
  forall w w' series,
    loadCoverage table w = (Ok tt, w') ->
    queryCoverage c a w' = (Ok series, w') ->
    forall y v,
      In (y, v) series <->
      In {| country := c; antigen := a; year := y; coverage_pct := v |} table.

(** A table with a negative zero, as [read_csv] reads the field "-0.0". *)
Definition negative_zero_table : list CoverageRecord :=
  [ {| country := "Ghana"; antigen := "coverage__dtp3";
       year := 2000; coverage_pct := neg_zero |} ].

(** A small download: two coverage columns and one other column; one
    missing coverage value, one year before 1980. *)
Definition sample_df : DataFrame :=
  {| columns := ["coverage__dtp3"; "population"; "coverage__mcv1"];
     rows :=
       [ {| Entity := Some "Sierra Leone"; Year := Some 1979;
            cells := [10; 3000000; 12]%float |};
         {| Entity := Some "Sierra Leone"; Year := Some 2015;
            cells := [86; 7000000; 76]%float |};
         {| Entity := Some "Sierra Leone"; Year := Some 2016;
            cells := [84; 7200000; nan]%float |};
         {| Entity := Some "Sierra Leone"; Year := Some 2017;
            cells := [90; 7400000; 80]%float |};
         {| Entity := Some "Sierra Leone"; Year := Some 2018;
            cells := [91; 7600000; 81]%float |} ] |}.

(** A download whose entity name holds a path separator. *)
Definition slash_df : DataFrame :=
  {| columns := ["coverage__dtp3"];
     rows :=
       [ {| Entity := Some "A/B"; Year := Some 2015; cells := [70]%float |};
         {| Entity := Some "A/B"; Year := Some 2016; cells := [72]%float |};
         {| Entity := Some "A/B"; Year := Some 2017; cells := [80]%float |};
         {| Entity := Some "A/B"; Year := Some 2018; cells := [82]%float |} ]
  |}.

(** Nine values whose sum depends on the order of the additions. *)
Definition nine_values : list float :=
  [1e16; 1; 1; 1; 1; 1; 1; 1; 1]%float.

(** One line of the file without an entity name. *)
Definition anonymous_df : DataFrame :=
  {| columns := ["coverage__dtp3"];
     rows := [ {| Entity := None; Year := Some 2000; cells := [50]%float |} ] |}.

(** The series of the specification's scenario. *)
Definition scenario_series : Series :=
  [ (2015, 60%float); (2016, 62%float); (2017, 65%float);
    (2018, 80%float); (2019, 85%float); (2020, 88%float) ].

Definition empty_db : DB := {| owid_raw := None; immunization := None |}.

(** An environment that accepts every frame and every file name. *)
Definition friendly_env : Environment :=
  {| raw_write := fun _ => RawWritten; file_writable := fun _ => true |}.

(** An environment whose working directory refuses the names that hold a
    path separator, and where the raw write fails on a frame without
    columns, losing the old raw table. *)
Definition strict_env : Environment :=
  {| raw_write := fun df => match columns df with
                            | [] => RawFails (Some None)
                            | _ => RawWritten
                            end;
     file_writable :=
       fun path => negb (existsb (Ascii.eqb "/") (list_ascii_of_string path))
  |}.

(** A fresh world whose working directory refuses path separators. *)
Definition strict_world : World :=
  {| env := strict_env; db := empty_db; files := []; console := [] |}.

Definition empty_world : World :=
  {| env := friendly_env; db := empty_db; files := []; console := [] |}.

(** Stand-ins for the three scipy routines, to run the scripts on examples;
    no statement below depends on what they return. *)
Definition stub_ttest_ind (a b : list float) : float * float :=
  (0%float, 1%float).
Definition stub_sem (data : list float) : float := 0%float.
Definition stub_t_ppf (q : float) (df : Z) : float := 0%float.

(** A batch invocation with both names given and the default years. *)
Definition sample_args (c a : string) : Args :=
  {| arg_country := Some c; arg_antigen := Some a;
     arg_start_year := 2017; arg_pre_years := 5; arg_post_years := 5 |}.

(** The gate of line 125 on a series. *)
Definition enough_data (series : Series) (start_year pre_years post_years : Z)
  : bool :=
  (1 <? List.length (before_rows series start_year pre_years))%nat
  && (1 <? List.length (after_rows series start_year post_years))%nat.

(** The lines printed between two states of the world. *)
Definition printed (w w' : World) : list Message :=
  skipn (List.length (console w)) (console w').

(** The specification's reading of the batch entry point: both names given
    means both artifacts are in the working directory afterwards. *)
Definition always_writes_artifacts
           (ttest_ind : list float -> list float -> float * float)
           (sem : list float -> float) (t_ppf : float -> Z -> float) : Prop :=
  forall args df w c a,
    arg_country args = Some c -> arg_antigen args = Some a ->
    let w' := snd (main ttest_ind sem t_ppf args df w) in
    read_file (out_csv c a) w' <> None /\ read_file (out_png c a) w' <> None.

(** The exact rational a finite binary64 value stands for. *)
Definition float_to_Q (f : float) : option Q :=
  match Prim2SF f with
  | S754_zero _ => Some 0%Q
  | S754_finite s m e =>
      let mag := (inject_Z (Z.pos m) * Qpower 2 e)%Q in
      Some (if s then Qopp mag else mag)
  | _ => None
  end.

(** [x] written with two decimals is [q]: [q - 0.005 <= x < q + 0.005]. *)
Definition rounds_to_2dp (f : float) (q : Q) : bool :=
  match float_to_Q f with
  | Some x => Qle_bool (q - (5 # 1000))%Q x
              && negb (Qle_bool (q + (5 # 1000))%Q x)
  | None => false
  end.

(** A record the transform emits for [sample_df]. *)
Definition sample_record : CoverageRecord :=
  {| country := "Sierra Leone"; antigen := "coverage__dtp3";
     year := 2015; coverage_pct := 86 |}.

(** The identifier cells of a line of the download. *)
Definition id_cells (row : RawRecord) : option string * option Z :=
  (Entity row, Year row).

(** A download that has the same line twice. *)
Definition duplicate_df : DataFrame :=
  {| columns := ["coverage__dtp3"];
     rows :=
       [ {| Entity := Some "Ghana"; Year := Some 2000; cells := [88]%float |};
         {| Entity := Some "Ghana"; Year := Some 2000; cells := [88]%float |} ]
  |}.

(** A database left by an earlier run. *)
Definition loaded_world : World :=
  {| env := friendly_env;
     db := {| owid_raw := Some sample_df;
              immunization := Some (transform sample_df) |};
     files := []; console := [] |}.

(** A text has a space in it. *)
Definition has_space (s : string) : bool :=
  existsb (Ascii.eqb " ") (list_ascii_of_string s).

(** An upper-case ASCII letter. *)
Definition is_upper (c : ascii) : bool :=
  ((65 <=? N_of_ascii c) && (N_of_ascii c <=? 90))%N.

(** Reading the letters back from the code points of a flag. *)
Definition decode_flag (flag : list Z) : string :=
  string_of_list_ascii
    (map (fun z => ascii_of_N (Z.to_N (z - 0x1F1E6 + 65))) flag).

(** A stand-in for the pycountry lookup, for examples. *)
Definition stub_lookup (name : string) : option string :=
  if String.eqb name "India" then Some "IN"
  else if String.eqb name "Sierra Leone" then Some "SL"
  else None.

(* ===================================================================== *)
(** * Sanity examples *)
(* ===================================================================== *)

Example coverage_cols_sample :
  coverage_cols sample_df = ["coverage__dtp3"; "coverage__mcv1"].
Proof. reflexivity. Qed.

Example transform_sample_length : List.length (transform sample_df) = 7%nat.
Proof. vm_compute. reflexivity. Qed.

Example transform_sample_head :
  hd_error (transform sample_df)
  = Some {| country := "Sierra Leone"; antigen := "coverage__dtp3";
            year := 2015; coverage_pct := 86 |}.
Proof. vm_compute. reflexivity. Qed.

Example transform_anonymous : transform anonymous_df = [].
Proof. vm_compute. reflexivity. Qed.

Example removeprefix_dtp3 :
  removeprefix COVERAGE_PREFIX "coverage__dtp3" = "dtp3".
Proof. reflexivity. Qed.

Example out_csv_spaces :
  out_csv "Sierra Leone" "coverage__dtp3"
  = "coverage_Sierra_Leone_coverage__dtp3.csv".
Proof. reflexivity. Qed.

Example mean_scenario_before :
  mean (before_vals scenario_series 2018 2) = 63.5%float.
Proof. vm_compute. reflexivity. Qed.

Example rounds_example : rounds_to_2dp 63.5%float (635 # 10) = true.
Proof. vm_compute. reflexivity. Qed.

(* ===================================================================== *)
(** * The transform: what is emitted, and from where *)
(* ===================================================================== *)

Section TransformFacts.

Lemma between_spec (y lo hi : Z) :
  between y lo hi = true <-> lo <= y <= hi.
Proof. unfold between. rewrite andb_true_iff, !Z.leb_le. tauto. Qed.

Lemma In_melt (df : DataFrame) (vars : list string) (m : MeltedRow) :
  In m (melt df vars) <->
  exists c row, In c vars /\ In row (rows df) /\
    m = {| m_Entity := Entity row; m_Year := Year row;
           m_antigen := c; m_coverage_pct := cell df row c |}.
Proof.
  unfold melt. rewrite in_flat_map. split.
  - intros [c [Hc Hm]]. apply in_map_iff in Hm as [row [<- Hrow]].
    exists c, row. auto.
  - intros [c [row [Hc [Hrow ->]]]]. exists c. split; [assumption|].
    apply in_map_iff. exists row. auto.
Qed.

Lemma length_melt (df : DataFrame) (vars : list string) :
  List.length (melt df vars)
  = (List.length vars * List.length (rows df))%nat.
Proof.
  unfold melt. induction vars as [|c vars IH]; simpl; [reflexivity|].
  rewrite length_app, length_map, IH. reflexivity.
Qed.

Lemma dropna_app (a b : list MeltedRow) :
  dropna (a ++ b) = dropna a ++ dropna b.
Proof.
  induction a as [|m a IH]; simpl; [reflexivity|].
  destruct (dropna_row m); simpl; rewrite IH; reflexivity.
Qed.

Lemma In_dropna (ms : list MeltedRow) (t : TidyRow) :
  In t (dropna ms) <-> exists m, In m ms /\ dropna_row m = Some t.
Proof.
  induction ms as [|m ms IH]; simpl.
  - split; [tauto | intros [? [[] _]]].
  - destruct (dropna_row m) as [t'|] eqn:E; simpl; rewrite IH; split.
    + intros [<- | [m' [Hin Hm']]]; eauto.
    + intros [m' [[<- | Hin] Hm']]; [left; congruence | eauto].
    + intros [m' [Hin Hm']]; eauto.
    + intros [m' [[<- | Hin] Hm']]; [congruence | eauto].
Qed.

Lemma tidy_app (a b : list MeltedRow) : tidy (a ++ b) = tidy a ++ tidy b.
Proof. unfold tidy. rewrite dropna_app, map_app, filter_app. reflexivity. Qed.

(** Every melted row is handled on its own, in order. *)
Lemma tidy_rowwise (ms : list MeltedRow) :
  tidy ms = flat_map (fun m => tidy [m]) ms.
Proof.
  induction ms as [|m ms IH]; [reflexivity|].
  change (m :: ms) with ([m] ++ ms). rewrite tidy_app, IH. reflexivity.
Qed.

(** What one melted row turns into. *)
Lemma tidy_one (m : MeltedRow) :
  tidy [m] =
  match m_Entity m, m_Year m with
  | Some e, Some y =>
      if is_nan (m_coverage_pct m) || negb (between y 1980 2100) then []
      else [ {| country := e; antigen := m_antigen m; year := y;
                coverage_pct := m_coverage_pct m |} ]
  | _, _ => []
  end.
Proof.
  unfold tidy, dropna, dropna_row.
  destruct (m_Entity m) as [e|]; [|reflexivity].
  destruct (m_Year m) as [y|]; [|reflexivity].
  destruct (is_nan (m_coverage_pct m)); [reflexivity|]. simpl.
  destruct (between y 1980 2100); reflexivity.
Qed.

(** The records of the tidy frame, each with the row and the column it
    comes from. *)
Lemma In_transform (df : DataFrame) (r : CoverageRecord) :
  In r (transform df) <->
  exists c row,
    In c (coverage_cols df) /\ In row (rows df) /\
    Entity row = Some (country r) /\ Year row = Some (year r) /\
    antigen r = c /\ coverage_pct r = cell df row c /\
    is_nan (cell df row c) = false /\ 1980 <= year r <= 2100.
Proof.
  unfold transform. rewrite tidy_rowwise, in_flat_map. split.
  - intros [m [Hm Hr]]. apply In_melt in Hm as [c [row [Hc [Hrow ->]]]].
    rewrite tidy_one in Hr. simpl in Hr.
    destruct (Entity row) as [e|] eqn:Ee; [|contradiction].
    destruct (Year row) as [y|] eqn:Ey; [|contradiction].
    destruct (is_nan (cell df row c)) eqn:En; [contradiction|].
    destruct (between y 1980 2100) eqn:Eb; [|contradiction].
    simpl in Hr. destruct Hr as [<- | []]. simpl.
    exists c, row. apply between_spec in Eb. simpl. tauto.
  - intros [c [row [Hc [Hrow [He [Hy [Ha [Hv [Hn Hb]]]]]]]]].
    exists {| m_Entity := Entity row; m_Year := Year row;
              m_antigen := c; m_coverage_pct := cell df row c |}.
    split; [apply In_melt; eauto|].
    rewrite tidy_one. simpl. rewrite He, Hy, Hn.
    apply between_spec in Hb. rewrite Hb. simpl. left.
    destruct r; simpl in *; subst; reflexivity.
Qed.

Lemma prefix_length (p s : string) :
  String.prefix p s = true -> (String.length p <= String.length s)%nat.
Proof.
  revert s. induction p as [|a p IH]; intros s H; simpl; [lia|].
  destruct s as [|b s]; simpl in *; [discriminate|].
  destruct (ascii_dec a b); [|discriminate].
  apply IH in H. lia.
Qed.

Lemma substring_length_le (n m : nat) (s : string) :
  (String.length (substring n m s) <= m)%nat.
Proof.
  revert n m. induction s as [|a s IH]; intros n m.
  - destruct n, m; simpl; lia.
  - destruct n as [|n]; [destruct m as [|m]|]; simpl.
    + lia.
    + specialize (IH O m). lia.
    + apply IH.
Qed.

(** Removing a non-empty prefix a label starts with gives another text. *)
Lemma removeprefix_changes (p s : string) :
  startswith s p = true -> p <> "" -> removeprefix p s <> s.
Proof.
  unfold startswith, removeprefix. intros Hp Hne. rewrite Hp. intros E.
  pose proof (prefix_length p s Hp) as Hlen.
  pose proof (substring_length_le (String.length p)
                (String.length s - String.length p) s) as Hsub.
  rewrite E in Hsub. destruct p as [|a p]; [congruence|]. simpl in *. lia.
Qed.

(** A label is found at its position when no label occurs twice. *)
Lemma index_of_position (c : string) (cols : list string) (i : nat) :
  NoDup cols -> nth_error cols i = Some c -> index_of c cols = Some i.
Proof.
  revert i. induction cols as [|x cols IH]; intros i Hnd Hi.
  - destruct i; discriminate.
  - inversion Hnd as [|? ? Hnotin Hnd']; subst. simpl.
    destruct i as [|i]; simpl in Hi.
    + injection Hi as ->. rewrite String.eqb_refl. reflexivity.
    + destruct (String.eqb_spec c x) as [->|Hne].
      * exfalso. apply Hnotin. eapply nth_error_In. exact Hi.
      * rewrite (IH i Hnd' Hi). reflexivity.
Qed.

(** The cell under a label is the cell at the position of the label. *)
Lemma cell_position (df : DataFrame) (row : RawRecord) (c : string) (i : nat) :
  NoDup (columns df) -> nth_error (columns df) i = Some c ->
  cell df row c = nth i (cells row) nan.
Proof.
  intros Hnd Hi. unfold cell.
  rewrite (index_of_position c (columns df) i Hnd Hi). reflexivity.
Qed.

Lemma pairwise_sum_unfold (fuel : nat) (l : list float) :
  pairwise_sum fuel l =
  if (List.length l <? 8)%nat then sum_small l
  else if (List.length l <=? 128)%nat then sum_block l
  else
    match fuel with
    | O => sum_block l
    | S fuel' =>
        (pairwise_sum fuel'
           (firstn (List.length l / 2 - (List.length l / 2) mod 8) l)
         + pairwise_sum fuel'
             (skipn (List.length l / 2 - (List.length l / 2) mod 8) l))%float
    end.
Proof. destruct fuel; reflexivity. Qed.

(** Any fuel from the length of the list on gives the same sum: the
    cuts never run out of fuel. *)
Lemma pairwise_sum_fuel (f1 f2 : nat) (l : list float) :
  (List.length l <= f1)%nat -> (List.length l <= f2)%nat ->
  pairwise_sum f1 l = pairwise_sum f2 l.
Proof.
  revert f2 l. induction f1 as [|f1 IH]; intros f2 l H1 H2;
    rewrite (pairwise_sum_unfold _ l), (pairwise_sum_unfold f2 l).
  - assert (List.length l = O) as -> by lia. reflexivity.
  - destruct (List.length l <? 8)%nat eqn:E8; [reflexivity|].
    destruct (List.length l <=? 128)%nat eqn:E128; [reflexivity|].
    apply Nat.leb_gt in E128.
    destruct f2 as [|f2]; [lia|].
    set (n := List.length l) in *.
    assert (Hh : (64 <= n / 2)%nat)
      by (apply Nat.div_le_lower_bound; lia).
    assert (Hlt : (n / 2 < n)%nat) by (apply Nat.div_lt; lia).
    assert (Hm : ((n / 2) mod 8 < 8)%nat)
      by (apply Nat.mod_upper_bound; lia).
    f_equal; apply IH;
      rewrite ?length_firstn, ?length_skipn; fold n; lia.
Qed.

Lemma In_coverage_cols (df : DataFrame) (c : string) :
  In c (coverage_cols df) <->
  In c (columns df) /\ startswith c COVERAGE_PREFIX = true.
Proof. unfold coverage_cols. rewrite filter_In. reflexivity. Qed.

End TransformFacts.

(** C1, as the code has it: every record the transform emits carries in
    [antigen] the label of the coverage column its value was read from, as
    the label stands in the file (it is a column of the frame and it starts
    with "coverage__", so it is not that label with the prefix removed);
    country, year and value are those of a row of the frame. *)
Theorem C1_antigen_is_column_label (df : DataFrame) (r : CoverageRecord) :
  In r (transform df) ->
  In (antigen r) (columns df) /\
  startswith (antigen r) COVERAGE_PREFIX = true /\
  antigen r <> removeprefix COVERAGE_PREFIX (antigen r) /\
  exists row, In row (rows df) /\
              Entity row = Some (country r) /\
              Year row = Some (year r) /\
              coverage_pct r = cell df row (antigen r).
Proof.
  intros Hr.
  apply In_transform in Hr as [c [row [Hc [Hrow [He [Hy [Ha [Hv _]]]]]]]].
  subst c. apply In_coverage_cols in Hc as [Hcol Hpre].
  split; [assumption|]. split; [assumption|]. split.
  - intros E. symmetry in E. revert E.
    apply removeprefix_changes; [assumption | discriminate].
  - exists row. auto.
Qed.

Lemma C1_antigen_is_column_label_witness :
  In (antigen sample_record) (columns sample_df) /\
  startswith (antigen sample_record) COVERAGE_PREFIX = true /\
  antigen sample_record
  <> removeprefix COVERAGE_PREFIX (antigen sample_record) /\
  exists row, In row (rows sample_df) /\
              Entity row = Some (country sample_record) /\
              Year row = Some (year sample_record) /\
              coverage_pct sample_record
              = cell sample_df row (antigen sample_record).
Proof.
  apply (C1_antigen_is_column_label sample_df sample_record).
  vm_compute. left. reflexivity.
Defined.

(** C1, as the specification words it, fails: [sample_df] yields a record
    whose antigen is "coverage__dtp3", and no coverage column of the frame
    has that text as its label with the prefix removed. *)
Lemma C1_antigen_not_stripped : ~ antigen_is_stripped_label sample_df.
Proof.
  intros H. destruct (H sample_record) as [c [Hc Heq]].
  - vm_compute. left. reflexivity.
  - simpl in Hc. destruct Hc as [<- | [<- | []]]; vm_compute in Heq;
      discriminate Heq.
Qed.

Lemma tidy_column (df : DataFrame) (c : string) (rs : list RawRecord) :
  tidy (map (fun row =>
               {| m_Entity := Entity row; m_Year := Year row;
                  m_antigen := c; m_coverage_pct := cell df row c |}) rs)
  = flat_map
      (fun row =>
         match Entity row, Year row with
         | Some e, Some y =>
             if negb (is_nan (cell df row c)) && (1980 <=? y) && (y <=? 2100)
             then [ {| country := e; antigen := c; year := y;
                       coverage_pct := cell df row c |} ]
             else []
         | _, _ => []
         end) rs.
Proof.
  induction rs as [|row rs IH]; [reflexivity|].
  change (map ?f (row :: rs)) with ([f row] ++ map f rs).
  rewrite tidy_app, IH, tidy_one. cbn [flat_map]. f_equal. simpl.
  destruct (Entity row) as [e|]; [|reflexivity].
  destruct (Year row) as [y|]; [|reflexivity].
  unfold between.
  destruct (is_nan (cell df row c)), (1980 <=? y), (y <=? 2100); reflexivity.
Qed.

(** C3, as the code has it: the tidy frame holds, for every column whose
    label starts with "coverage__" in turn and every line of the download in
    turn, exactly one record when the line has an entity, a year within
    1980..2100 and a value in that column, and nothing otherwise: a (row,
    coverage column) pair is dropped exactly when its coverage value, its
    entity or its year is missing, or its year is outside 1980..2100.  The
    value of a pair is the cell of the line at the position of the label. *)
Theorem C3_dropped_exactly_when_null (df : DataFrame) :
  transform df
  = flat_map
      (fun c =>
         flat_map
           (fun row =>
              match Entity row, Year row with
              | Some e, Some y =>
                  if negb (is_nan (cell df row c))
                     && (1980 <=? y) && (y <=? 2100)
                  then [ {| country := e; antigen := c; year := y;
                            coverage_pct := cell df row c |} ]
                  else []
              | _, _ => []
              end)
           (rows df))
      (filter (String.prefix "coverage__") (columns df))
  /\
  (forall row c e y,
     In row (rows df) -> In c (columns df) ->
     String.prefix "coverage__" c = true ->
     Entity row = Some e -> Year row = Some y ->
     (In {| country := e; antigen := c; year := y;
            coverage_pct := cell df row c |} (transform df)
      <-> is_nan (cell df row c) = false /\ 1980 <= y <= 2100))
  /\
  (forall r, In r (transform df) ->
     exists row,
       In row (rows df) /\ In (antigen r) (columns df) /\
       String.prefix "coverage__" (antigen r) = true /\
       Entity row = Some (country r) /\ Year row = Some (year r) /\
       coverage_pct r = cell df row (antigen r) /\
       is_nan (coverage_pct r) = false /\ 1980 <= year r <= 2100)
  /\
  (NoDup (columns df) ->
   forall row c i,
     nth_error (columns df) i = Some c ->
     cell df row c = nth i (cells row) nan).
Proof.
  split; [|split; [|split]];
    [| | |intros Hnd row c i Hi; apply cell_position; assumption].
  - unfold transform, coverage_cols.
    change (filter (fun c => startswith c COVERAGE_PREFIX) (columns df))
      with (filter (String.prefix "coverage__") (columns df)).
    induction (filter (String.prefix "coverage__") (columns df))
      as [|c cs IH]; [reflexivity|].
    unfold melt. cbn [flat_map]. fold (melt df cs).
    rewrite tidy_app, IH, tidy_column. reflexivity.
  - intros row c e y Hrow Hc Hpre He Hy. rewrite In_transform. simpl. split.
    + intros [c' [row' [_ [_ [_ [_ [_ [Hv [Hn Hb]]]]]]]]].
      rewrite Hv. auto.
    + intros [Hn Hb]. exists c, row.
      assert (In c (coverage_cols df)) by (apply In_coverage_cols; auto).
      tauto.
  - intros r Hr.
    apply In_transform in Hr as [c [row [Hc [Hrow [He [Hy [Ha [Hv [Hn Hb]]]]]]]]].
    subst c. apply In_coverage_cols in Hc as [Hcol Hpre].
    unfold startswith, COVERAGE_PREFIX in Hpre.
    exists row. rewrite Hv. tauto.
Qed.

(** C3, as the specification words it, fails: the only line of
    [anonymous_df] has the value 50 in column "coverage__dtp3" and the year
    2000, but no entity name, and the tidy frame is empty. *)
Lemma C3_dropped_for_missing_entity :
  ~ dropped_only_for_null_value anonymous_df.
Proof.
  intros H.
  destruct (H {| Entity := None; Year := Some 2000; cells := [50]%float |}
              "coverage__dtp3" 2000) as [r [Hr _]].
  - left. reflexivity.
  - left. reflexivity.
  - reflexivity.
  - lia.
  - vm_compute. reflexivity.
  - vm_compute in Hr. exact Hr.
Qed.

(** A line with no entity name (or no year) is dropped whatever its
    coverage value. *)
Lemma dropna_drops_missing_ids (m : MeltedRow) :
  m_Entity m = None \/ m_Year m = None -> tidy [m] = [].
Proof.
  intros H. rewrite tidy_one.
  destruct H as [-> | ->]; [reflexivity|].
  destruct (m_Entity m); reflexivity.
Qed.

(** C8: every record of the tidy frame has its year in 1980..2100, both
    ends included. *)
Theorem C8_year_in_range (df : DataFrame) :
  Forall (fun r => 1980 <= year r <= 2100) (transform df).
Proof.
  apply Forall_forall. intros r Hr.
  apply In_transform in Hr as [c [row H]]. tauto.
Qed.

(** The ends are reached: 1980 and 2100 are kept, 1979 and 2101 are not. *)
Example year_bounds_inclusive :
  map (fun y => between y 1980 2100) [1979; 1980; 2100; 2101]
  = [false; true; true; false].
Proof. reflexivity. Qed.

(* ===================================================================== *)
(** * The store: primary key, load, query *)
(* ===================================================================== *)

Section StoreFacts.

Lemma same_key_spec (a b : CoverageRecord) :
  same_key a b = true <-> key a = key b.
Proof.
  unfold same_key, key.
  rewrite !andb_true_iff, !String.eqb_eq, Z.eqb_eq.
  split; [intros [[-> ->] ->]; reflexivity | intros [= -> -> ->]; auto].
Qed.

Lemma existsb_same_key (r : CoverageRecord) (table : list CoverageRecord) :
  existsb (same_key r) table = true <-> In (key r) (map key table).
Proof.
  rewrite existsb_exists, in_map_iff. split.
  - intros [x [Hin Hk]]. apply same_key_spec in Hk. eauto.
  - intros [x [Hk Hin]]. exists x. split; [assumption|].
    apply same_key_spec. auto.
Qed.

(** A batch with pairwise distinct keys, none of them in the table, is
    inserted whole and in order. *)
Lemma insert_rows_ok (rs table : list CoverageRecord) :
  NoDup (map key (table ++ rs)) -> insert_rows rs table = Ok (table ++ rs).
Proof.
  revert table. induction rs as [|r rs IH]; intros table Hnd; simpl.
  - rewrite app_nil_r. reflexivity.
  - destruct (existsb (same_key r) table) eqn:E.
    + exfalso. apply existsb_same_key in E.
      rewrite map_app in Hnd. simpl in Hnd.
      apply NoDup_remove_2 in Hnd. apply Hnd.
      apply in_or_app. left. assumption.
    + replace (table ++ r :: rs) with ((table ++ [r]) ++ rs) in *
        by (rewrite <- app_assoc; reflexivity).
      apply IH. assumption.
Qed.

(** A key that occurs twice makes the batch fail. *)
Lemma insert_rows_dup (rs table : list CoverageRecord) :
  ~ NoDup (map key (table ++ rs)) -> NoDup (map key table) ->
  insert_rows rs table = Err UniqueViolation.
Proof.
  revert table. induction rs as [|r rs IH]; intros table Hdup Hnd; simpl.
  - rewrite app_nil_r in Hdup. contradiction.
  - destruct (existsb (same_key r) table) eqn:E; [reflexivity|].
    apply IH.
    + rewrite <- app_assoc. exact Hdup.
    + rewrite map_app. simpl. apply NoDup_app_remove_r with (l' := []).
      rewrite <- app_assoc. simpl.
      apply Permutation_NoDup with (l := key r :: map key table).
      * apply Permutation_cons_append.
      * constructor; [|assumption].
        intros Hin. apply existsb_same_key in Hin. congruence.
Qed.

(** The load of lines 72-84 from any state of the database. *)
Lemma loadCoverage_run (table : list CoverageRecord) (w : World) :
  loadCoverage table w =
  match insert_rows table [] with
  | Ok t =>
      (Ok tt, {| env := env w; db := {| owid_raw := owid_raw (db w);
                          immunization := Some t |};
                 files := files w; console := console w |})
  | Err e =>
      (Err e, {| env := env w; db := {| owid_raw := owid_raw (db w);
                          immunization := Some [] |};
                 files := files w; console := console w |})
  end.
Proof.
  unfold loadCoverage, to_sql_append, create_table, drop_table_if_exists,
    bind, get_db, put_db, raise. simpl.
  destruct (insert_rows table []); reflexivity.
Qed.

Lemma insert_by_year_perm (o : Z * float) (s : Series) :
  Permutation (insert_by_year o s) (o :: s).
Proof.
  induction s as [|x s IH]; simpl; [reflexivity|].
  destruct (fst o <=? fst x); [reflexivity|].
  rewrite IH. apply perm_swap.
Qed.

Lemma sort_by_year_perm (s : Series) : Permutation (sort_by_year s) s.
Proof.
  induction s as [|o s IH]; simpl; [reflexivity|].
  rewrite insert_by_year_perm. constructor. assumption.
Qed.

Lemma insert_by_year_sorted (o : Z * float) (s : Series) :
  StronglySorted le_year s -> StronglySorted le_year (insert_by_year o s).
Proof.
  induction s as [|x s IH]; intros Hs; simpl.
  - constructor; constructor.
  - inversion Hs as [|? ? Hs' Hall]; subst.
    destruct (Z.leb_spec (fst o) (fst x)) as [Hle|Hgt].
    + constructor; [assumption|]. constructor; [exact Hle|].
      eapply Forall_impl; [|exact Hall].
      intros b Hb. unfold le_year in *. lia.
    + constructor; [apply IH; assumption|].
      apply Forall_forall. intros b Hb.
      apply (Permutation_in _ (insert_by_year_perm o s)) in Hb.
      destruct Hb as [<- | Hb].
      * unfold le_year. lia.
      * rewrite Forall_forall in Hall. apply Hall. assumption.
Qed.

Lemma sort_by_year_sorted (s : Series) :
  StronglySorted le_year (sort_by_year s).
Proof.
  induction s as [|o s IH]; simpl; [constructor|].
  apply insert_by_year_sorted. assumption.
Qed.

End StoreFacts.

Section QueryFacts.

Lemma matches_spec (c a : string) (r : CoverageRecord) :
  matches c a r = true <-> country r = c /\ antigen r = a.
Proof. unfold matches. rewrite andb_true_iff, !String.eqb_eq. tauto. Qed.

Lemma select_series_perm (c a : string) (table : list CoverageRecord) :
  Permutation (select_series c a table)
              (map stored_observation (filter (matches c a) table)).
Proof. unfold select_series. apply sort_by_year_perm. Qed.

(** A value read back is the value stored, except that a zero is read
    back as +0.0. *)
Lemma sqlite_real_spec (v : float) :
  sqlite_real v = v \/ ((0 =? v)%float = true /\ sqlite_real v = 0%float).
Proof. unfold sqlite_real. destruct (0 =? v)%float; auto. Qed.

(** A value read back equals the value stored as a number ([==]). *)
Lemma sqlite_real_same_number (v : float) :
  is_nan v = false -> (sqlite_real v =? v)%float = true.
Proof.
  unfold sqlite_real, is_nan. intros H.
  destruct (0 =? v)%float eqn:E; [exact E|].
  apply negb_false_iff. exact H.
Qed.

Lemma zero_not_neg_zero : 0%float <> neg_zero.
Proof.
  intros E.
  assert (H : (1 / 0 <? 0)%float = (1 / neg_zero <? 0)%float)
    by (rewrite <- E; reflexivity).
  vm_compute in H. discriminate H.
Qed.

(** No value read back is -0.0. *)
Lemma sqlite_real_not_neg_zero (v : float) : sqlite_real v <> neg_zero.
Proof.
  unfold sqlite_real. destruct (0 =? v)%float eqn:E.
  - exact zero_not_neg_zero.
  - intros ->. vm_compute in E. discriminate E.
Qed.

Lemma In_select_series (c a : string) (table : list CoverageRecord)
      (y : Z) (v : float) :
  In (y, v) (select_series c a table) <->
  exists v0,
    In {| country := c; antigen := a; year := y; coverage_pct := v0 |} table
    /\ v = sqlite_real v0.
Proof.
  split.
  - intros H. apply (Permutation_in _ (select_series_perm c a table)) in H.
    apply in_map_iff in H as [r [Hr Hin]].
    apply filter_In in Hin as [Hin Hm]. apply matches_spec in Hm as [<- <-].
    injection Hr as <- <-. exists (coverage_pct r).
    split; [destruct r; exact Hin | reflexivity].
  - intros [v0 [H ->]].
    apply (Permutation_in _ (Permutation_sym (select_series_perm c a table))).
    apply in_map_iff.
    exists {| country := c; antigen := a; year := y; coverage_pct := v0 |}.
    split; [reflexivity|]. apply filter_In. split; [assumption|].
    apply matches_spec. auto.
Qed.

(** Under the primary key the years of one (country, antigen) differ. *)
Lemma NoDup_years (c a : string) (table : list CoverageRecord) :
  NoDup (map key table) ->
  NoDup (map fst (map stored_observation (filter (matches c a) table))).
Proof.
  induction table as [|r table IH]; intros Hnd; simpl; [constructor|].
  inversion Hnd as [|? ? Hnotin Hnd']; subst.
  destruct (matches c a r) eqn:Em; [|auto].
  simpl. constructor; [|auto].
  intros Hin. apply Hnotin.
  rewrite map_map in Hin. apply in_map_iff in Hin as [r' [Hy Hr']].
  apply filter_In in Hr' as [Hr' Em'].
  apply matches_spec in Em as [Hc Ha]. apply matches_spec in Em' as [Hc' Ha'].
  apply in_map_iff. exists r'. split; [|assumption].
  unfold key. simpl in Hy. congruence.
Qed.

Lemma sorted_distinct_strict (s : Series) :
  StronglySorted le_year s -> NoDup (map fst s) -> StronglySorted lt_year s.
Proof.
  induction s as [|x s IH]; intros Hs Hnd; [constructor|].
  inversion Hs as [|? ? Hs' Hall]; subst.
  inversion Hnd as [|? ? Hnotin Hnd']; subst.
  constructor; [auto|].
  rewrite Forall_forall in *. intros b Hb.
  specialize (Hall b Hb). unfold le_year, lt_year in *.
  assert (fst x <> fst b).
  { intros E. apply Hnotin. rewrite E. apply in_map. assumption. }
  lia.
Qed.

Lemma select_series_strict (c a : string) (table : list CoverageRecord) :
  NoDup (map key table) ->
  StronglySorted lt_year (select_series c a table).
Proof.
  intros Hnd. apply sorted_distinct_strict.
  - apply sort_by_year_sorted.
  - apply Permutation_NoDup
      with (l := map fst (map stored_observation (filter (matches c a) table))).
    + apply Permutation_map, Permutation_sym, select_series_perm.
    + apply NoDup_years. assumption.
Qed.

Lemma select_series_absent (c a : string) (table : list CoverageRecord) :
  (forall r, In r table -> matches c a r = false) ->
  select_series c a table = [].
Proof.
  intros H. unfold select_series.
  replace (filter (matches c a) table) with (@nil CoverageRecord);
    [reflexivity|].
  symmetry. induction table as [|r table IH]; [reflexivity|].
  simpl. rewrite (H r (or_introl eq_refl)). apply IH.
  intros r' Hr'. apply H. right. assumption.
Qed.

End QueryFacts.

(** C9, as the code has it: a table whose keys (country, antigen, year)
    are pairwise distinct is loaded whole; the query for a (country, antigen)
    then returns, without touching the store, the (year, coverage_pct) pairs
    the table holds for it, each as often as the table has it and with its
    value as a REAL column hands it back (the value stored, bit for bit,
    except that a zero is read back as +0.0; so always the same number), by
    ascending year (the years are even strictly ascending); for a pair the
    table does not mention the result is the empty series, not an error. *)
Theorem C9_load_then_query (table : list CoverageRecord) (w : World)
        (c a : string) :
  NoDup (map key table) ->
  exists w',
    loadCoverage table w = (Ok tt, w') /\
    immunization (db w') = Some table /\
    exists series,
      queryCoverage c a w' = (Ok series, w') /\
      (forall y v,
         In (y, v) series <->
         exists v0,
           In {| country := c; antigen := a; year := y; coverage_pct := v0 |}
              table
           /\ v = sqlite_real v0) /\
      Permutation series
        (map stored_observation (filter (matches c a) table)) /\
      (forall v0,
         (sqlite_real v0 = v0
          \/ ((0 =? v0)%float = true /\ sqlite_real v0 = 0%float))
         /\ (is_nan v0 = false -> (sqlite_real v0 =? v0)%float = true)) /\
      StronglySorted le_year series /\
      StronglySorted lt_year series /\
      ((forall r, In r table -> matches c a r = false) -> series = []).
Proof.
  intros Hnd. rewrite loadCoverage_run.
  rewrite (insert_rows_ok table []) by exact Hnd. simpl.
  eexists. split; [reflexivity|]. split; [reflexivity|].
  exists (select_series c a table). split; [reflexivity|].
  split; [intros y v; apply In_select_series|].
  split; [apply select_series_perm|].
  split; [intros v0; split;
          [apply sqlite_real_spec | apply sqlite_real_same_number]|].
  split; [apply sort_by_year_sorted|].
  split; [apply select_series_strict; assumption|].
  apply select_series_absent.
Qed.

Lemma C9_load_then_query_witness :
  exists w',
    loadCoverage (transform sample_df) empty_world = (Ok tt, w') /\
    immunization (db w') = Some (transform sample_df) /\
    exists series,
      queryCoverage "Sierra Leone" "coverage__mcv1" w' = (Ok series, w') /\
      (forall y v,
         In (y, v) series <->
         exists v0,
           In {| country := "Sierra Leone"; antigen := "coverage__mcv1";
                 year := y; coverage_pct := v0 |} (transform sample_df)
           /\ v = sqlite_real v0) /\
      Permutation series
        (map stored_observation
           (filter (matches "Sierra Leone" "coverage__mcv1")
                   (transform sample_df))) /\
      (forall v0,
         (sqlite_real v0 = v0
          \/ ((0 =? v0)%float = true /\ sqlite_real v0 = 0%float))
         /\ (is_nan v0 = false -> (sqlite_real v0 =? v0)%float = true)) /\
      StronglySorted le_year series /\
      StronglySorted lt_year series /\
      ((forall r, In r (transform sample_df) ->
                  matches "Sierra Leone" "coverage__mcv1" r = false) ->
       series = []).
Proof.
  apply (C9_load_then_query (transform sample_df) empty_world
           "Sierra Leone" "coverage__mcv1").
  vm_compute.
  repeat (constructor;
          [ simpl; intros H;
            repeat (destruct H as [H | H]; [discriminate H|]); exact H | ]).
  constructor.
Defined.

(** C9, as the specification words it, fails: the table holds the pair
    (2000, -0.0) for ("Ghana", "coverage__dtp3"), the load succeeds, and the
    series read back holds (2000, +0.0) instead. *)
Lemma C9_negative_zero_not_returned :
  ~ query_returns_the_pairs_held negative_zero_table "Ghana" "coverage__dtp3".
Proof.
  intros H.
  specialize (H empty_world _ _ eq_refl eq_refl 2000 neg_zero).
  destruct H as [_ H].
  assert (Hin : In (2000, neg_zero) [(2000, 0%float)]).
  { apply H. left. reflexivity. }
  destruct Hin as [E | []]. apply (f_equal snd) in E. simpl in E.
  exact (zero_not_neg_zero E).
Qed.

(** What the query returns for the sample, and for a pair that is absent. *)
Example query_sample :
  select_series "Sierra Leone" "coverage__mcv1" (transform sample_df)
  = [ (2015, 76%float); (2017, 80%float); (2018, 81%float) ].
Proof. vm_compute. reflexivity. Qed.

Example query_absent :
  select_series "Atlantis" "coverage__mcv1" (transform sample_df) = [].
Proof. vm_compute. reflexivity. Qed.

(* ===================================================================== *)
(** * The pipeline: what a run leaves in the database *)
(* ===================================================================== *)

(** The whole of a run, from any world: the raw write decides first,
    then the keys of the tidy frame. *)
Lemma run_etl_run (df : DataFrame) (w : World) :
  run_etl df w =
  match raw_write (env w) df with
  | RawWritten =>
      match insert_rows (transform df) [] with
      | Ok t =>
          (Ok true,
           {| env := env w;
              db := {| owid_raw := Some df; immunization := Some t |};
              files := files w;
              console := console w
                         ++ [MsgExtract; MsgTransform; MsgLoad;
                             MsgEtlComplete] |})
      | Err e =>
          (Err e,
           {| env := env w;
              db := {| owid_raw := Some df; immunization := Some [] |};
              files := files w;
              console := console w ++ [MsgExtract; MsgTransform; MsgLoad] |})
      end
  | RawFails remains =>
      (Err RawWriteError,
       {| env := env w;
          db := {| owid_raw := match remains with
                               | Some t => t
                               | None => owid_raw (db w)
                               end;
                   immunization := immunization (db w) |};
          files := files w;
          console := console w ++ [MsgExtract; MsgTransform; MsgLoad] |})
  end.
Proof.
  unfold run_etl, to_sql_replace_raw, to_sql_append, create_table,
    drop_table_if_exists, print, bind, get_db, get_env, put_db, raise, ret.
  simpl.
  destruct (raw_write (env w) df) as [|remains]; simpl;
    [destruct (insert_rows (transform df) []); simpl|];
    rewrite <- ?app_assoc; reflexivity.
Qed.

(** A run leaves the environment and the working directory alone. *)
Lemma run_etl_env (df : DataFrame) (w : World) :
  env (snd (run_etl df w)) = env w /\ files (snd (run_etl df w)) = files w.
Proof.
  rewrite run_etl_run.
  destruct (raw_write (env w) df);
    [destruct (insert_rows (transform df) [])|]; split; reflexivity.
Qed.

(** A batch that went in was appended whole. *)
Lemma insert_rows_inv (rs t0 t1 : list CoverageRecord) :
  insert_rows rs t0 = Ok t1 -> t1 = t0 ++ rs.
Proof.
  revert t0 t1. induction rs as [|r rs IH]; intros t0 t1 H; simpl in H.
  - injection H as <-. rewrite app_nil_r. reflexivity.
  - destruct (existsb (same_key r) t0); [discriminate|].
    apply IH in H. rewrite H, <- app_assoc. reflexivity.
Qed.

(** A run that returned [True] wrote the raw table and stored the tidy
    frame, row for row. *)
Lemma run_etl_success (df : DataFrame) (w : World) :
  fst (run_etl df w) = Ok true ->
  db (snd (run_etl df w))
  = {| owid_raw := Some df; immunization := Some (transform df) |} /\
  files (snd (run_etl df w)) = files w.
Proof.
  rewrite run_etl_run.
  destruct (raw_write (env w) df); [|discriminate].
  destruct (insert_rows (transform df) []) as [t|e] eqn:E; [|discriminate].
  intros _. apply insert_rows_inv in E. simpl in E. subst t. auto.
Qed.

(** When the raw write goes through and the keys are distinct, the run
    stores the tidy frame, row for row. *)
Lemma run_etl_ok (df : DataFrame) (w : World) :
  raw_write (env w) df = RawWritten ->
  NoDup (map key (transform df)) ->
  fst (run_etl df w) = Ok true /\
  db (snd (run_etl df w))
  = {| owid_raw := Some df; immunization := Some (transform df) |} /\
  files (snd (run_etl df w)) = files w.
Proof.
  intros Hraw Hnd. rewrite run_etl_run, Hraw.
  rewrite (insert_rows_ok (transform df) []) by exact Hnd. auto.
Qed.

(** C10: running the pipeline a second time on the same download leaves
    table [immunization] (and table [owid_raw]) as the first run left it,
    whatever the database held before the first run; the second run also
    ends as the first did. *)
Theorem C10_run_etl_twice (df : DataFrame) (w : World) :
  immunization (db (snd (run_etl df (snd (run_etl df w)))))
  = immunization (db (snd (run_etl df w)))
  /\ db (snd (run_etl df (snd (run_etl df w)))) = db (snd (run_etl df w))
  /\ fst (run_etl df (snd (run_etl df w))) = fst (run_etl df w)
  /\ (fst (run_etl df w) = Ok true ->
      immunization (db (snd (run_etl df w))) = Some (transform df)).
Proof.
  assert (H4 : fst (run_etl df w) = Ok true ->
               immunization (db (snd (run_etl df w))) = Some (transform df)).
  { intros Hok. destruct (run_etl_success df w Hok) as [-> _]. reflexivity. }
  rewrite (run_etl_run df (snd (run_etl df w))).
  destruct (run_etl_env df w) as [-> _].
  revert H4. rewrite (run_etl_run df w).
  destruct (raw_write (env w) df) as [|remains]; intros H4.
  - destruct (insert_rows (transform df) []) as [t|e]; cbn [fst snd db];
      repeat split; auto.
  - cbn [fst snd db immunization owid_raw].
    destruct remains as [t|]; repeat split; auto.
Qed.

(** The second run replaces what an unrelated earlier state held. *)
Example run_etl_replaces :
  immunization
    (db (snd (run_etl sample_df
                {| env := friendly_env;
                   db := {| owid_raw := None;
                            immunization := Some [sample_record; sample_record] |};
                   files := []; console := [] |})))
  = Some (transform sample_df).
Proof. vm_compute. reflexivity. Qed.

(* ===================================================================== *)
(** * The comparator *)
(* ===================================================================== *)

Section WindowFacts.

Variables (series : Series) (start_year pre_years post_years : Z).

Lemma In_before_rows (y : Z) (v : float) :
  In (y, v) (before_rows series start_year pre_years) <->
  In (y, v) series /\ start_year - pre_years <= y <= start_year - 1.
Proof.
  unfold before_rows. rewrite filter_In. simpl.
  rewrite andb_true_iff, !Z.leb_le. tauto.
Qed.

Lemma In_after_rows (y : Z) (v : float) :
  In (y, v) (after_rows series start_year post_years) <->
  In (y, v) series /\ start_year <= y <= start_year + post_years.
Proof.
  unfold after_rows. rewrite filter_In. simpl.
  rewrite andb_true_iff, !Z.leb_le. tauto.
Qed.

Lemma length_before_vals :
  List.length (before_vals series start_year pre_years)
  = List.length (before_rows series start_year pre_years).
Proof. apply length_map. Qed.

Lemma length_after_vals :
  List.length (after_vals series start_year post_years)
  = List.length (after_rows series start_year post_years).
Proof. apply length_map. Qed.

End WindowFacts.

(** The two windows and the observations in neither make up the series. *)
Lemma windows_split (series : Series) (start_year pre_years post_years : Z) :
  Permutation series
    (before_rows series start_year pre_years
     ++ after_rows series start_year post_years
     ++ filter (fun o =>
                  negb ((start_year - pre_years <=? fst o)
                        && (fst o <=? start_year - 1))
                  && negb ((start_year <=? fst o)
                           && (fst o <=? start_year + post_years)))
               series).
Proof.
  unfold before_rows, after_rows.
  induction series as [|o s IH]; simpl; [constructor|].
  destruct ((start_year - pre_years <=? fst o) && (fst o <=? start_year - 1))
    eqn:Eb; simpl.
  - assert (Ea : (start_year <=? fst o) && (fst o <=? start_year + post_years)
                 = false).
    { apply andb_true_iff in Eb as [_ Hb]. apply Z.leb_le in Hb.
      apply andb_false_iff. left. apply Z.leb_gt. lia. }
    rewrite Ea. simpl. constructor. exact IH.
  - destruct ((start_year <=? fst o) && (fst o <=? start_year + post_years));
      simpl.
    + apply Permutation_cons_app. exact IH.
    + rewrite app_assoc. apply Permutation_cons_app.
      rewrite <- app_assoc. exact IH.
Qed.

(** C5: the before window holds exactly the observations of the series
    with [start_year - pre_years <= year <= start_year - 1], the after window
    exactly those with [start_year <= year <= start_year + post_years]; the
    values handed to the statistics are their [coverage_pct] column; no
    observation is in both, and the series is made of the two windows and of
    the observations that are in neither. *)
Theorem C5_windows (series : Series) (start_year pre_years post_years : Z) :
  (forall y v,
     In (y, v) (before_rows series start_year pre_years) <->
     In (y, v) series /\ start_year - pre_years <= y <= start_year - 1) /\
  (forall y v,
     In (y, v) (after_rows series start_year post_years) <->
     In (y, v) series /\ start_year <= y <= start_year + post_years) /\
  before_vals series start_year pre_years
  = map snd (before_rows series start_year pre_years) /\
  after_vals series start_year post_years
  = map snd (after_rows series start_year post_years) /\
  (forall o, ~ (In o (before_rows series start_year pre_years) /\
                In o (after_rows series start_year post_years))) /\
  exists rest,
    Permutation series
      (before_rows series start_year pre_years
       ++ after_rows series start_year post_years ++ rest) /\
    Forall (fun o => ~ (start_year - pre_years <= fst o <= start_year - 1) /\
                     ~ (start_year <= fst o <= start_year + post_years)) rest.
Proof.
  split; [intros y v; apply In_before_rows|].
  split; [intros y v; apply In_after_rows|].
  split; [reflexivity|]. split; [reflexivity|]. split.
  - intros [y v] [Hb Ha].
    apply In_before_rows in Hb. apply In_after_rows in Ha. lia.
  - eexists. split; [apply windows_split|].
    apply Forall_forall. intros o Ho. apply filter_In in Ho as [_ Ho].
    apply andb_true_iff in Ho as [H1 H2].
    apply negb_true_iff in H1, H2.
    apply andb_false_iff in H1, H2. rewrite !Z.leb_gt in H1, H2. lia.
Qed.

Section ComparatorFacts.

Variable ttest_ind : list float -> list float -> float * float.
Variable sem : list float -> float.
Variable t_ppf : float -> Z -> float.

(** The comparison is decided by the gate alone. *)
Lemma compare_gate (series : Series) (start_year pre_years post_years : Z) :
  compare ttest_ind sem t_ppf series start_year pre_years post_years =
  if enough_data series start_year pre_years post_years
  then Computed (statistics ttest_ind sem t_ppf (before_vals series start_year pre_years)
                            (after_vals series start_year post_years))
  else InsufficientData.
Proof.
  unfold compare, enough_data.
  rewrite length_before_vals, length_after_vals. reflexivity.
Qed.

Lemma enough_data_spec (series : Series) (start_year pre_years post_years : Z) :
  enough_data series start_year pre_years post_years = false <->
  (List.length (before_rows series start_year pre_years) < 2
   \/ List.length (after_rows series start_year post_years) < 2)%nat.
Proof.
  unfold enough_data. rewrite andb_false_iff, !Nat.ltb_ge. lia.
Qed.

(** An empty series has empty windows. *)
Lemma enough_data_nil (start_year pre_years post_years : Z) :
  enough_data [] start_year pre_years post_years = false.
Proof. reflexivity. Qed.

(** [run_analysis] on a database that has the table: the ways it ends. *)
Lemma run_analysis_run (c a : string) (start_year pre_years post_years : Z)
      (w : World) (table : list CoverageRecord) :
  immunization (db w) = Some table ->
  run_analysis ttest_ind sem t_ppf c a start_year pre_years post_years w =
  let series := select_series c a table in
  let analysis :=
    MsgAnalysis c a (start_year - pre_years) (start_year - 1)
                start_year (start_year + post_years) in
  let stats :=
    MsgStatistics
      (statistics ttest_ind sem t_ppf
                  (before_vals series start_year pre_years)
                  (after_vals series start_year post_years)) in
  let with_csv :=
    (out_csv c a, CsvFile series)
    :: filter (fun f => negb (String.eqb (fst f) (out_csv c a))) (files w) in
  match series with
  | [] =>
      (Ok tt, {| env := env w; db := db w; files := files w;
                 console := console w ++ [MsgNoData c a] |})
  | _ :: _ =>
      if enough_data series start_year pre_years post_years then
        if file_writable (env w) (out_csv c a) then
          if file_writable (env w) (out_png c a) then
            (Ok tt,
             {| env := env w;
                db := db w;
                files :=
                  (out_png c a,
                   PlotFile c a series start_year pre_years post_years)
                  :: filter (fun f => negb (String.eqb (fst f) (out_png c a)))
                       with_csv;
                console :=
                  console w
                  ++ [ analysis; stats; MsgSavedCsv (out_csv c a);
                       MsgSavedPlot (out_png c a) ] |})
          else
            (Err FileWriteError,
             {| env := env w; db := db w; files := with_csv;
                console :=
                  console w ++ [analysis; stats; MsgSavedCsv (out_csv c a)] |})
        else
          (Err FileWriteError,
           {| env := env w; db := db w; files := files w;
              console := console w ++ [analysis; stats] |})
      else
        (Ok tt,
         {| env := env w; db := db w; files := files w;
            console := console w ++ [analysis; MsgNotEnoughData] |})
  end.
Proof.
  intros Ht. unfold run_analysis, queryCoverage, bind, get_db, ret.
  rewrite Ht. cbv zeta.
  destruct (select_series c a table) as [|o s] eqn:Es; [reflexivity|].
  unfold enough_data. rewrite <- length_before_vals, <- length_after_vals.
  destruct ((1 <? List.length (before_vals (o :: s) start_year pre_years))%nat
            && (1 <? List.length (after_vals (o :: s) start_year post_years))%nat);
    unfold print, write_file; cbn [fst snd env db files console];
    [|rewrite <- ?app_assoc; reflexivity].
  destruct (file_writable (env w) (out_csv c a));
    cbn [fst snd env db files console];
    [|rewrite <- ?app_assoc; reflexivity].
  destruct (file_writable (env w) (out_png c a));
    cbn [fst snd env db files console];
    rewrite <- ?app_assoc; reflexivity.
Qed.

End ComparatorFacts.

Lemma printed_app (w : World) (e : Environment) (d : DB)
      (fs : list (string * Artifact)) (msgs : list Message) :
  printed w {| env := e; db := d; files := fs; console := console w ++ msgs |}
  = msgs.
Proof.
  unfold printed. simpl. induction (console w) as [|m l IH]; simpl; auto.
Qed.

Lemma out_csv_not_out_png (c a : string) :
  String.eqb (out_csv c a) (out_png c a) = false /\
  String.eqb (out_png c a) (out_csv c a) = false.
Proof. split; reflexivity. Qed.

Section ComparatorClaims.

Variable ttest_ind : list float -> list float -> float * float.
Variable sem : list float -> float.
Variable t_ppf : float -> Z -> float.

(** C2: the comparison of a series is [InsufficientData] if and only if
    the before window or the after window holds fewer than 2 observations;
    and [run_analysis], on a pair that has data, prints the not-enough-data
    notice exactly in that case and the statistics exactly in the other. *)
Theorem C2_insufficient_iff (series : Series)
        (start_year pre_years post_years : Z) :
  (compare ttest_ind sem t_ppf series start_year pre_years post_years
   = InsufficientData
   <-> (List.length (before_rows series start_year pre_years) < 2
        \/ List.length (after_rows series start_year post_years) < 2)%nat) /\
  (forall c a w table,
     immunization (db w) = Some table ->
     select_series c a table = series ->
     series <> [] ->
     (In MsgNotEnoughData
         (printed w (snd (run_analysis ttest_ind sem t_ppf c a
                            start_year pre_years post_years w)))
      <-> compare ttest_ind sem t_ppf series start_year pre_years post_years
          = InsufficientData) /\
     ((exists r, In (MsgStatistics r)
                    (printed w (snd (run_analysis ttest_ind sem t_ppf c a
                                       start_year pre_years post_years w))))
      <-> compare ttest_ind sem t_ppf series start_year pre_years post_years
          <> InsufficientData)).
Proof.
  split.
  - rewrite compare_gate, <- enough_data_spec.
    destruct (enough_data series start_year pre_years post_years);
      split; congruence.
  - intros c a w table Ht Hs Hne.
    rewrite (run_analysis_run _ _ _ c a start_year pre_years post_years w table Ht).
    cbv zeta. rewrite Hs, compare_gate.
    destruct series as [|o s]; [congruence|].
    destruct (enough_data (o :: s) start_year pre_years post_years).
    + destruct (file_writable (env w) (out_csv c a));
        [destruct (file_writable (env w) (out_png c a))|];
        cbn [snd]; rewrite printed_app; split; split;
        try discriminate;
        try (intros _; eexists; right; left; reflexivity);
        simpl; intros H;
        repeat (destruct H as [H | H]; [discriminate H|]); contradiction.
    + cbn [snd]. rewrite printed_app. simpl. split; split.
      * auto.
      * auto.
      * intros [r [H | [H | []]]]; discriminate H.
      * congruence.
Qed.

(** C6: on the scenario series with campaign year 2018 and two years on
    each side, the before window holds the values 62 and 65 and the after
    window 80, 85 and 88; the comparison is computed; mean(before) is 63.5,
    mean(after) is the binary64 value next to 253/3, which is 84.33 to two
    decimals, and the difference mean(after) - mean(before) is positive and
    is 20.83 to two decimals. *)
Theorem C6_scenario :
  before_vals scenario_series 2018 2 = [62; 65]%float /\
  after_vals scenario_series 2018 2 = [80; 85; 88]%float /\
  exists r,
    compare ttest_ind sem t_ppf scenario_series 2018 2 2 = Computed r /\
    avg_before r = 63.5%float /\
    avg_after r = 0x1.5155555555555p+6%float /\
    rounds_to_2dp (avg_after r) (8433 # 100) = true /\
    diff r = (avg_after r - avg_before r)%float /\
    rounds_to_2dp (diff r) (2083 # 100) = true /\
    (0 <? diff r)%float = true.
Proof.
  split; [reflexivity|]. split; [reflexivity|].
  exists (statistics ttest_ind sem t_ppf [62; 65]%float [80; 85; 88]%float).
  split; [reflexivity|].
  unfold statistics.
  destruct (ttest_ind [62; 65]%float [80; 85; 88]%float) as [t p].
  cbn [avg_before avg_after diff].
  repeat split; vm_compute; reflexivity.
Qed.

(** C7: on fewer than 2 values [mean_ci] returns NaN for both bounds; it
    calls neither [sem] nor [t.ppf] and raises nothing. *)
Theorem C7_mean_ci_short (data : list float) (confidence : float) :
  (List.length data < 2)%nat ->
  mean_ci sem t_ppf data confidence = (nan, nan).
Proof.
  intros H. unfold mean_ci.
  apply Nat.ltb_lt in H. rewrite H. reflexivity.
Qed.

(** C4, as the code has it: when the batch entry point is given a
    non-empty country and a non-empty antigen, the pipeline run succeeds and
    the working directory accepts the two file names, it ends normally, and
    it writes [coverage_<country>_<antigen>.csv] (the stored series) and
    [plot_<country>_<antigen>.png], spaces replaced by underscores, exactly
    when the series stored for the pair has at least 2 observations in each
    window; otherwise the working directory is left as it was. *)
Theorem C4_artifacts_when_enough_data (args : Args) (df : DataFrame)
        (w : World) (c a : string) :
  arg_country args = Some c ->
  arg_antigen args = Some a ->
  c <> "" -> a <> "" ->
  fst (run_etl df w) = Ok true ->
  file_writable (env w) (out_csv c a) = true ->
  file_writable (env w) (out_png c a) = true ->
  fst (main ttest_ind sem t_ppf args df w) = Ok tt /\
  if enough_data (select_series c a (transform df))
                 (arg_start_year args) (arg_pre_years args)
                 (arg_post_years args)
  then
    read_file (out_csv c a) (snd (main ttest_ind sem t_ppf args df w))
    = Some (CsvFile (select_series c a (transform df))) /\
    read_file (out_png c a) (snd (main ttest_ind sem t_ppf args df w))
    = Some (PlotFile c a (select_series c a (transform df))
              (arg_start_year args) (arg_pre_years args)
              (arg_post_years args))
  else
    files (snd (main ttest_ind sem t_ppf args df w)) = files w.
Proof.
  intros Hc Ha Hcne Hane Hetl Hcsv Hpng.
  destruct (run_etl_success df w Hetl) as [Hdb Hfiles].
  destruct (run_etl_env df w) as [Henv _].
  unfold main, bind.
  destruct (run_etl df w) as [[b|e] w1] eqn:E; simpl in Hetl;
    [|discriminate]. simpl in Hdb, Hfiles, Henv.
  rewrite Hc, Ha. unfold truthy.
  apply String.eqb_neq in Hcne, Hane. rewrite Hcne, Hane. cbn [negb andb].
  assert (Ht : immunization (db w1) = Some (transform df))
    by (rewrite Hdb; reflexivity).
  rewrite (run_analysis_run _ _ _ c a _ _ _ w1 _ Ht). cbv zeta.
  rewrite Henv, Hcsv, Hpng.
  destruct (select_series c a (transform df)) as [|o s] eqn:Es.
  - rewrite enough_data_nil. simpl. auto.
  - destruct (enough_data (o :: s) (arg_start_year args)
                (arg_pre_years args) (arg_post_years args));
      cbn [fst snd]; [|auto].
    split; [reflexivity|].
    destruct (out_csv_not_out_png c a) as [H1 H2].
    unfold read_file. cbn [files find filter fst snd negb].
    rewrite H1, H2. cbn [negb find fst]. rewrite !String.eqb_refl.
    split; reflexivity.
Qed.

(** X19: when both names are given, the run succeeded and both windows
    hold at least 2 observations, a CSV name the working directory refuses
    (a country with a path separator, say) makes the batch raise at
    [to_csv], after the statistics were printed, with no file written; when
    only the name of the plot is refused it raises at [savefig], and the CSV
    is there. *)
Theorem X19_refused_file_name (args : Args) (df : DataFrame) (w : World)
        (c a : string) :
  arg_country args = Some c ->
  arg_antigen args = Some a ->
  c <> "" -> a <> "" ->
  fst (run_etl df w) = Ok true ->
  enough_data (select_series c a (transform df))
              (arg_start_year args) (arg_pre_years args)
              (arg_post_years args) = true ->
  (file_writable (env w) (out_csv c a) = false ->
   fst (main ttest_ind sem t_ppf args df w) = Err FileWriteError /\
   files (snd (main ttest_ind sem t_ppf args df w)) = files w /\
   exists r,
     printed (snd (run_etl df w)) (snd (main ttest_ind sem t_ppf args df w))
     = [ MsgAnalysis c a (arg_start_year args - arg_pre_years args)
           (arg_start_year args - 1) (arg_start_year args)
           (arg_start_year args + arg_post_years args);
         MsgStatistics r ]) /\
  (file_writable (env w) (out_csv c a) = true ->
   file_writable (env w) (out_png c a) = false ->
   fst (main ttest_ind sem t_ppf args df w) = Err FileWriteError /\
   read_file (out_csv c a) (snd (main ttest_ind sem t_ppf args df w))
   = Some (CsvFile (select_series c a (transform df))) /\
   read_file (out_png c a) (snd (main ttest_ind sem t_ppf args df w))
   = read_file (out_png c a) w).
Proof.
  intros Hc Ha Hcne Hane Hetl Hgate.
  destruct (run_etl_success df w Hetl) as [Hdb Hfiles].
  destruct (run_etl_env df w) as [Henv _].
  unfold main, bind.
  destruct (run_etl df w) as [[b|e] w1] eqn:E; simpl in Hetl;
    [|discriminate]. simpl in Hdb, Hfiles, Henv. cbn [snd].
  rewrite Hc, Ha. unfold truthy.
  apply String.eqb_neq in Hcne, Hane. rewrite Hcne, Hane. cbn [negb andb].
  assert (Ht : immunization (db w1) = Some (transform df))
    by (rewrite Hdb; reflexivity).
  rewrite (run_analysis_run _ _ _ c a _ _ _ w1 _ Ht). cbv zeta.
  rewrite Henv, Hgate.
  destruct (select_series c a (transform df)) as [|o s] eqn:Es;
    [rewrite enough_data_nil in Hgate; discriminate|].
  split.
  - intros ->. cbn [fst snd files]. rewrite printed_app.
    split; [reflexivity|]. split; [assumption|]. eexists. reflexivity.
  - intros -> ->. cbn [fst snd]. split; [reflexivity|].
    destruct (out_csv_not_out_png c a) as [H1 H2].
    unfold read_file. cbn [files find fst snd].
    rewrite String.eqb_refl. split; [reflexivity|].
    rewrite H1, Hfiles. clear.
    induction (files w) as [|f fs IH]; [reflexivity|]. simpl.
    destruct (String.eqb_spec (fst f) (out_csv c a)) as [Heq|Hne]; simpl.
    + rewrite IH. destruct (String.eqb_spec (fst f) (out_png c a)) as [Hp|_];
        [|reflexivity].
      exfalso. destruct (out_csv_not_out_png c a) as [H1 _].
      rewrite <- Heq, Hp, String.eqb_refl in H1. discriminate.
    + destruct (String.eqb (fst f) (out_png c a)); [reflexivity | exact IH].
Qed.

End ComparatorClaims.

Lemma C7_mean_ci_short_witness :
  mean_ci stub_sem stub_t_ppf [42%float] 0.95 = (nan, nan)
  /\ mean_ci stub_sem stub_t_ppf [] 0.95 = (nan, nan).
Proof.
  split.
  - apply (C7_mean_ci_short stub_sem stub_t_ppf [42%float] 0.95). simpl. lia.
  - apply (C7_mean_ci_short stub_sem stub_t_ppf [] 0.95). simpl. lia.
Defined.

(** With 2 values the bounds are computed from [sem] and [t.ppf]. *)
Example mean_ci_two :
  mean_ci stub_sem stub_t_ppf [62; 65]%float 0.95 = (63.5, 63.5)%float.
Proof. vm_compute. reflexivity. Qed.

Lemma C4_artifacts_when_enough_data_witness :
  fst (main stub_ttest_ind stub_sem stub_t_ppf
         (sample_args "Sierra Leone" "coverage__dtp3") sample_df empty_world)
  = Ok tt /\
  (read_file "coverage_Sierra_Leone_coverage__dtp3.csv"
     (snd (main stub_ttest_ind stub_sem stub_t_ppf
             (sample_args "Sierra Leone" "coverage__dtp3")
             sample_df empty_world))
   = Some (CsvFile [ (2015, 86%float); (2016, 84%float);
                     (2017, 90%float); (2018, 91%float) ]) /\
   read_file "plot_Sierra_Leone_coverage__dtp3.png"
     (snd (main stub_ttest_ind stub_sem stub_t_ppf
             (sample_args "Sierra Leone" "coverage__dtp3")
             sample_df empty_world))
   = Some (PlotFile "Sierra Leone" "coverage__dtp3"
             [ (2015, 86%float); (2016, 84%float);
               (2017, 90%float); (2018, 91%float) ] 2017 5 5)).
Proof.
  refine (C4_artifacts_when_enough_data stub_ttest_ind stub_sem stub_t_ppf
            (sample_args "Sierra Leone" "coverage__dtp3")
            sample_df empty_world "Sierra Leone" "coverage__dtp3"
            eq_refl eq_refl _ _ eq_refl eq_refl eq_refl); discriminate.
Defined.

(** C4, as the specification words it, fails: both names are given, the
    run succeeds, and yet nothing is written, because the before window
    2012..2016 of ("Sierra Leone", "coverage__mcv1") holds one observation
    only. *)
Lemma C4_no_artifact_written :
  ~ always_writes_artifacts stub_ttest_ind stub_sem stub_t_ppf.
Proof.
  intros H.
  destruct (H (sample_args "Sierra Leone" "coverage__mcv1")
              sample_df empty_world "Sierra Leone" "coverage__mcv1"
              eq_refl eq_refl) as [Hcsv _].
  apply Hcsv. vm_compute. reflexivity.
Qed.

(** The whole of that run: it ends normally, prints the notice and leaves
    the working directory empty. *)
Example main_not_enough_data :
  let out := main stub_ttest_ind stub_sem stub_t_ppf
               (sample_args "Sierra Leone" "coverage__mcv1")
               sample_df empty_world in
  fst out = Ok tt /\
  files (snd out) = [] /\
  console (snd out)
  = [ MsgExtract; MsgTransform; MsgLoad; MsgEtlComplete;
      MsgAnalysis "Sierra Leone" "coverage__mcv1" 2012 2016 2017 2022;
      MsgNotEnoughData ].
Proof. vm_compute. repeat split. Qed.

(** A pair the store does not know: the no-data notice, nothing written. *)
Example main_no_data :
  let out := main stub_ttest_ind stub_sem stub_t_ppf
               (sample_args "Atlantis" "coverage__dtp3")
               sample_df empty_world in
  fst out = Ok tt /\
  files (snd out) = [] /\
  console (snd out)
  = [ MsgExtract; MsgTransform; MsgLoad; MsgEtlComplete;
      MsgNoData "Atlantis" "coverage__dtp3" ].
Proof. vm_compute. repeat split. Qed.

(** The specification's second scenario: campaign year 1981, five years
    before, a series that starts in 1980. *)
Example scenario_1981 :
  compare stub_ttest_ind stub_sem stub_t_ppf
    [ (1980, 20%float); (1981, 25%float); (1982, 30%float) ] 1981 5 5
  = InsufficientData.
Proof. reflexivity. Qed.

(* ===================================================================== *)
(** * More on the pipeline: failure, success, what is stored *)
(* ===================================================================== *)

Lemma NoDup_keys_snoc (table : list CoverageRecord) (r : CoverageRecord) :
  NoDup (map key table) ->
  existsb (same_key r) table = false ->
  NoDup (map key (table ++ [r])).
Proof.
  intros Hnd Hex. rewrite map_app. simpl.
  apply Permutation_NoDup with (l := key r :: map key table).
  - apply Permutation_cons_append.
  - constructor; [|assumption].
    intros Hin. apply existsb_same_key in Hin. congruence.
Qed.

(** A batch that went in left the primary key intact. *)
Lemma insert_rows_keeps_key (rs t0 t1 : list CoverageRecord) :
  insert_rows rs t0 = Ok t1 -> NoDup (map key t0) -> NoDup (map key t1).
Proof.
  revert t0 t1. induction rs as [|r rs IH]; intros t0 t1 H Hnd; simpl in H.
  - injection H as <-. assumption.
  - destruct (existsb (same_key r) t0) eqn:E; [discriminate|].
    apply (IH _ _ H). apply NoDup_keys_snoc; assumption.
Qed.

(** The only error of a batch is the violated key. *)
Lemma insert_rows_error (rs t0 : list CoverageRecord) (e : error) :
  insert_rows rs t0 = Err e -> e = UniqueViolation.
Proof.
  revert t0. induction rs as [|r rs IH]; intros t0 H; simpl in H.
  - discriminate.
  - destruct (existsb (same_key r) t0); [congruence | eauto].
Qed.

(** X1: from the parsed download on, when the raw write of line 70 goes
    through and two records of the tidy frame share (country, antigen,
    year), the run raises the key violation after it has replaced
    [owid_raw] and recreated [immunization]: the table is left empty,
    whatever it held before; no file is touched and the completion line is
    not printed. *)
Theorem X1_duplicate_key_empties_table (df : DataFrame) (w : World) :
  raw_write (env w) df = RawWritten ->
  ~ NoDup (map key (transform df)) ->
  fst (run_etl df w) = Err UniqueViolation /\
  db (snd (run_etl df w))
  = {| owid_raw := Some df; immunization := Some [] |} /\
  files (snd (run_etl df w)) = files w /\
  printed w (snd (run_etl df w)) = [MsgExtract; MsgTransform; MsgLoad].
Proof.
  intros Hraw Hdup. rewrite run_etl_run, Hraw.
  rewrite (insert_rows_dup (transform df) []) by (auto; constructor).
  cbn [fst snd db files]. rewrite printed_app. auto.
Qed.

Lemma X1_duplicate_key_empties_table_witness :
  fst (run_etl duplicate_df loaded_world) = Err UniqueViolation /\
  db (snd (run_etl duplicate_df loaded_world))
  = {| owid_raw := Some duplicate_df; immunization := Some [] |} /\
  files (snd (run_etl duplicate_df loaded_world)) = files loaded_world /\
  printed loaded_world (snd (run_etl duplicate_df loaded_world))
  = [MsgExtract; MsgTransform; MsgLoad].
Proof.
  apply (X1_duplicate_key_empties_table duplicate_df loaded_world).
  - reflexivity.
  - vm_compute. intros H. inversion H as [|k l Hnotin Hnd]; subst.
    apply Hnotin. left. reflexivity.
Defined.

(** A run returns [True] or raises. *)
Lemma run_etl_outcome (df : DataFrame) (w : World) :
  fst (run_etl df w) = Ok true \/ exists e, fst (run_etl df w) = Err e.
Proof.
  rewrite run_etl_run.
  destruct (raw_write (env w) df);
    [destruct (insert_rows (transform df) [])|]; cbn [fst]; eauto.
Qed.

(** X2: from the parsed download on, when the raw write of line 70 goes
    through, the run returns [True] exactly when the keys (country, antigen,
    year) of the tidy frame are pairwise distinct, and it raises the key
    violation exactly when they are not. *)
Theorem X2_run_succeeds_iff_keys_distinct (df : DataFrame) (w : World) :
  raw_write (env w) df = RawWritten ->
  (fst (run_etl df w) = Ok true <-> NoDup (map key (transform df))) /\
  (fst (run_etl df w) = Err UniqueViolation
   <-> ~ NoDup (map key (transform df))).
Proof.
  intros Hraw. rewrite run_etl_run, Hraw.
  destruct (insert_rows (transform df) []) as [t|e] eqn:E; cbn [fst].
  - assert (Hnd : NoDup (map key (transform df))).
    { pose proof (insert_rows_inv _ _ _ E) as Ht. simpl in Ht. subst t.
      apply (insert_rows_keeps_key _ _ _ E). constructor. }
    repeat split; auto; try discriminate. intros H. contradiction.
  - pose proof (insert_rows_error _ _ _ E) as ->.
    assert (Hdup : ~ NoDup (map key (transform df))).
    { intros Hnd. rewrite (insert_rows_ok (transform df) []) in E
        by exact Hnd. discriminate. }
    repeat split; auto; try discriminate. intros H. contradiction.
Qed.

Lemma X2_run_succeeds_iff_keys_distinct_witness :
  (fst (run_etl duplicate_df loaded_world) = Ok true
   <-> NoDup (map key (transform duplicate_df))) /\
  (fst (run_etl duplicate_df loaded_world) = Err UniqueViolation
   <-> ~ NoDup (map key (transform duplicate_df))).
Proof.
  apply (X2_run_succeeds_iff_keys_distinct duplicate_df loaded_world).
  reflexivity.
Defined.

(** Where a record of the tidy frame comes from, for any melted frame. *)
Lemma In_tidy (ms : list MeltedRow) (r : CoverageRecord) :
  In r (tidy ms) ->
  exists m, In m ms /\
    m_Entity m = Some (country r) /\ m_Year m = Some (year r) /\
    m_antigen m = antigen r /\ m_coverage_pct m = coverage_pct r /\
    is_nan (coverage_pct r) = false /\ 1980 <= year r <= 2100.
Proof.
  rewrite tidy_rowwise, in_flat_map. intros [m [Hm Hr]].
  exists m. split; [assumption|]. rewrite tidy_one in Hr.
  destruct (m_Entity m) as [e|] eqn:Ee; [|contradiction].
  destruct (m_Year m) as [y|] eqn:Ey; [|contradiction].
  destruct (is_nan (m_coverage_pct m)) eqn:En; [contradiction|].
  destruct (between y 1980 2100) eqn:Eb; [|contradiction].
  simpl in Hr. destruct Hr as [<- | []]. simpl.
  apply between_spec in Eb. tauto.
Qed.

Lemma NoDup_keys_column (df : DataFrame) (c : string) (rs : list RawRecord) :
  NoDup (map id_cells rs) ->
  NoDup (map key
           (tidy (map (fun row =>
                         {| m_Entity := Entity row; m_Year := Year row;
                            m_antigen := c;
                            m_coverage_pct := cell df row c |}) rs))).
Proof.
  induction rs as [|row rs IH]; intros Hnd; [constructor|].
  inversion Hnd as [|? ? Hnotin Hnd']; subst.
  change (map ?f (row :: rs)) with ([f row] ++ map f rs).
  rewrite tidy_app, map_app. apply NoDup_app; [| apply IH; assumption |].
  - rewrite tidy_one. simpl.
    destruct (Entity row), (Year row); try constructor.
    destruct (_ || _); repeat constructor. intros [].
  - intros k Hk1 Hk2. apply Hnotin.
    apply in_map_iff in Hk1 as [r1 [<- Hr1]].
    apply in_map_iff in Hk2 as [r2 [Hk Hr2]].
    apply In_tidy in Hr1 as [m1 [[<- | []] [He1 [Hy1 _]]]].
    apply In_tidy in Hr2 as [m2 [Hm2 [He2 [Hy2 _]]]].
    apply in_map_iff in Hm2 as [row2 [<- Hrow2]].
    simpl in *. apply in_map_iff. exists row2. split; [|assumption].
    unfold id_cells, key in *. injection Hk as Hc _ Hy. congruence.
Qed.

Lemma NoDup_keys_melt (df : DataFrame) (vars : list string) :
  NoDup vars -> NoDup (map id_cells (rows df)) ->
  NoDup (map key (tidy (melt df vars))).
Proof.
  intros Hvars Hrows. induction vars as [|c vars IH]; [constructor|].
  inversion Hvars as [|? ? Hnotin Hvars']; subst.
  unfold melt. cbn [flat_map]. fold (melt df vars).
  rewrite tidy_app, map_app. apply NoDup_app.
  - apply NoDup_keys_column. assumption.
  - apply IH. assumption.
  - intros k Hk1 Hk2. apply Hnotin.
    apply in_map_iff in Hk1 as [r1 [<- Hr1]].
    apply in_map_iff in Hk2 as [r2 [Hk Hr2]].
    apply In_tidy in Hr1 as [m1 [Hm1 [_ [_ [Ha1 _]]]]].
    apply In_tidy in Hr2 as [m2 [Hm2 [_ [_ [Ha2 _]]]]].
    apply in_map_iff in Hm1 as [row1 [<- _]].
    apply In_melt in Hm2 as [c2 [row2 [Hc2 [_ ->]]]].
    simpl in *. unfold key in Hk. injection Hk as _ Ha _. congruence.
Qed.

(** X3: from the parsed download on, when the raw write of line 70 goes
    through, a download whose column labels are pairwise distinct and which
    has at most one line per (entity, year) loads: the run returns [True]
    and table [immunization] holds the tidy frame, row for row. *)
Theorem X3_one_line_per_entity_year_loads (df : DataFrame) (w : World) :
  raw_write (env w) df = RawWritten ->
  NoDup (columns df) ->
  NoDup (map id_cells (rows df)) ->
  fst (run_etl df w) = Ok true /\
  immunization (db (snd (run_etl df w))) = Some (transform df).
Proof.
  intros Hraw Hcols Hrows.
  assert (Hnd : NoDup (map key (transform df))).
  { apply NoDup_keys_melt; [|assumption].
    unfold coverage_cols. apply NoDup_filter. assumption. }
  destruct (run_etl_ok df w Hraw Hnd) as [Hres [Hdb _]].
  rewrite Hres, Hdb. auto.
Qed.

Lemma X3_one_line_per_entity_year_loads_witness :
  fst (run_etl sample_df empty_world) = Ok true /\
  immunization (db (snd (run_etl sample_df empty_world)))
  = Some (transform sample_df).
Proof.
  apply (X3_one_line_per_entity_year_loads sample_df empty_world).
  - reflexivity.
  - simpl.
    repeat (constructor;
            [ simpl; intros H;
              repeat (destruct H as [H | H]; [discriminate H|]); exact H | ]).
    constructor.
  - simpl.
    repeat (constructor;
            [ simpl; intros H;
              repeat (destruct H as [H | H]; [discriminate H|]); exact H | ]).
    constructor.
Defined.

(** X4: from the parsed download on, a run whose raw write of line 70
    went through leaves, failed or not, a table [immunization] that exists,
    whose keys (country, antigen, year) are pairwise distinct, whose years
    are in 1980..2100 and whose values are not missing, so that a later query
    of a series returns; a run whose raw write raised ends with that error
    and leaves table [immunization] as it was, absent if it was absent. *)
Theorem X4_table_invariant_after_run (df : DataFrame) (w : World) :
  (raw_write (env w) df = RawWritten ->
   exists table,
     immunization (db (snd (run_etl df w))) = Some table /\
     NoDup (map key table) /\
     Forall (fun r => 1980 <= year r <= 2100
                      /\ is_nan (coverage_pct r) = false) table /\
     forall c a,
       queryCoverage c a (snd (run_etl df w))
       = (Ok (select_series c a table), snd (run_etl df w))) /\
  (raw_write (env w) df <> RawWritten ->
   fst (run_etl df w) = Err RawWriteError /\
   immunization (db (snd (run_etl df w))) = immunization (db w) /\
   forall c a,
     immunization (db w) = None ->
     fst (queryCoverage c a (snd (run_etl df w))) = Err NoSuchTable).
Proof.
  rewrite run_etl_run. split.
  - intros ->.
    destruct (insert_rows (transform df) []) as [t|e] eqn:E;
      cbn [snd db immunization].
    + exists t. split; [reflexivity|].
      split; [apply (insert_rows_keeps_key _ _ _ E); constructor|].
      split; [|reflexivity].
      apply insert_rows_inv in E. simpl in E. subst t.
      apply Forall_forall. intros r Hr. apply In_tidy in Hr as [m H]. tauto.
    + exists []. split; [reflexivity|]. split; [constructor|].
      split; [constructor | reflexivity].
  - intros Hraw. destruct (raw_write (env w) df) as [|remains];
      [congruence|].
    cbn [fst snd db immunization]. repeat split.
    intros c a Hnone. unfold queryCoverage, bind, get_db, raise.
    cbn [db immunization]. rewrite Hnone. reflexivity.
Qed.

(* ===================================================================== *)
(** * From the download to the series *)
(* ===================================================================== *)

(** The keys of what a successful run stored are pairwise distinct. *)
Lemma run_etl_success_keys (df : DataFrame) (w : World) :
  fst (run_etl df w) = Ok true -> NoDup (map key (transform df)).
Proof.
  rewrite run_etl_run.
  destruct (raw_write (env w) df); [|discriminate].
  destruct (insert_rows (transform df) []) as [t|e] eqn:E; cbn [fst];
    [|discriminate].
  intros _. pose proof (insert_rows_inv _ _ _ E) as Ht. simpl in Ht. subst t.
  apply (insert_rows_keeps_key _ _ _ E). constructor.
Qed.

(** X5: after a run that returned [True], the series queried for a
    country [c] and an antigen label [a] returns without changing anything,
    is strictly ascending in the year, never holds -0.0, and holds the pair
    (y, v) exactly when [a] is a column of the download that starts with
    "coverage__" and some line of it has entity [c], year [y] within
    1980..2100 and in column [a] a non-missing value that a REAL column hands
    back as [v] (the value itself, a zero as +0.0). *)
Theorem X5_series_is_the_download (df : DataFrame) (w : World) (c a : string) :
  fst (run_etl df w) = Ok true ->
  exists series,
    queryCoverage c a (snd (run_etl df w)) = (Ok series, snd (run_etl df w)) /\
    StronglySorted lt_year series /\
    Forall (fun o => snd o <> neg_zero) series /\
    forall y v,
      In (y, v) series <->
      exists row,
        In row (rows df) /\ In a (columns df) /\
        String.prefix "coverage__" a = true /\
        Entity row = Some c /\ Year row = Some y /\
        v = sqlite_real (cell df row a) /\
        is_nan (cell df row a) = false /\ 1980 <= y <= 2100.
Proof.
  intros Hok.
  destruct (run_etl_success df w Hok) as [Hdb _].
  pose proof (run_etl_success_keys df w Hok) as Hnd.
  exists (select_series c a (transform df)).
  split; [|split; [|split]].
  - unfold queryCoverage, bind, get_db, ret. rewrite Hdb. reflexivity.
  - apply select_series_strict. assumption.
  - apply Forall_forall. intros [y v] Ho.
    apply In_select_series in Ho as [v0 [_ ->]]. simpl.
    apply sqlite_real_not_neg_zero.
  - intros y v. rewrite In_select_series. split.
    + intros [v0 [Hin ->]]. apply In_transform in Hin. simpl in Hin.
      destruct Hin as [c' [row [Hc [Hrow [He [Hy [Ha [Hv [Hn Hb]]]]]]]]].
      subst c'. apply In_coverage_cols in Hc as [Hcol Hpre].
      unfold startswith, COVERAGE_PREFIX in Hpre.
      exists row. rewrite Hv. tauto.
    + intros [row [Hrow [Hcol [Hpre [He [Hy [Hv [Hn Hb]]]]]]]].
      exists (cell df row a). split; [|assumption].
      apply In_transform. simpl. exists a, row.
      assert (In a (coverage_cols df)) by (apply In_coverage_cols; auto).
      tauto.
Qed.

Lemma X5_series_is_the_download_witness :
  exists series,
    queryCoverage "Sierra Leone" "coverage__mcv1"
      (snd (run_etl sample_df empty_world))
    = (Ok series, snd (run_etl sample_df empty_world)) /\
    StronglySorted lt_year series /\
    Forall (fun o => snd o <> neg_zero) series /\
    forall y v,
      In (y, v) series <->
      exists row,
        In row (rows sample_df) /\ In "coverage__mcv1" (columns sample_df) /\
        String.prefix "coverage__" "coverage__mcv1" = true /\
        Entity row = Some "Sierra Leone" /\ Year row = Some y /\
        v = sqlite_real (cell sample_df row "coverage__mcv1") /\
        is_nan (cell sample_df row "coverage__mcv1") = false /\
        1980 <= y <= 2100.
Proof.
  apply (X5_series_is_the_download sample_df empty_world
           "Sierra Leone" "coverage__mcv1").
  vm_compute. reflexivity.
Defined.

Section AnalysisFacts.

Variable ttest_ind : list float -> list float -> float * float.
Variable sem : list float -> float.
Variable t_ppf : float -> Z -> float.

(** X6: after a run that returned [True], an analysis asked for an
    antigen that is not the label of a coverage column of the download (the
    label without its "coverage__" prefix, for one) finds no data: it ends
    normally, prints the no-data line only and writes nothing. *)
Theorem X6_unknown_label_finds_no_data (df : DataFrame) (w : World)
        (c a : string) (start_year pre_years post_years : Z) :
  fst (run_etl df w) = Ok true ->
  ~ In a (coverage_cols df) ->
  fst (run_analysis ttest_ind sem t_ppf c a start_year pre_years post_years
         (snd (run_etl df w))) = Ok tt /\
  printed (snd (run_etl df w))
    (snd (run_analysis ttest_ind sem t_ppf c a start_year pre_years post_years
            (snd (run_etl df w))))
  = [MsgNoData c a] /\
  files (snd (run_analysis ttest_ind sem t_ppf c a
                start_year pre_years post_years (snd (run_etl df w))))
  = files w.
Proof.
  intros Hok Ha.
  destruct (run_etl_success df w Hok) as [Hdb Hfiles].
  assert (Ht : immunization (db (snd (run_etl df w))) = Some (transform df))
    by (rewrite Hdb; reflexivity).
  rewrite (run_analysis_run _ _ _ c a _ _ _ _ _ Ht). cbv zeta.
  rewrite select_series_absent.
  - cbn [fst snd files]. rewrite printed_app. auto.
  - intros r Hr. apply In_transform in Hr as [c' [row [Hc [_ [_ [_ [Hant _]]]]]]].
    unfold matches. apply andb_false_iff. right.
    apply String.eqb_neq. congruence.
Qed.

(** X7: an analysis only reads the database: whatever happens, the tables
    are afterwards as they were.  Without table [immunization] it raises the
    no-such-table error, having printed and written nothing; with the table
    it ends normally or raises at the write of a file, nothing else, and it
    ends normally whenever the working directory accepts the two names. *)
Theorem X7_analysis_reads_only (c a : string)
        (start_year pre_years post_years : Z) (w : World) :
  db (snd (run_analysis ttest_ind sem t_ppf c a
             start_year pre_years post_years w)) = db w /\
  (immunization (db w) = None ->
   run_analysis ttest_ind sem t_ppf c a start_year pre_years post_years w
   = (Err NoSuchTable, w)) /\
  (immunization (db w) <> None ->
   (fst (run_analysis ttest_ind sem t_ppf c a
           start_year pre_years post_years w) = Ok tt
    \/ fst (run_analysis ttest_ind sem t_ppf c a
              start_year pre_years post_years w) = Err FileWriteError) /\
   (file_writable (env w) (out_csv c a) = true ->
    file_writable (env w) (out_png c a) = true ->
    fst (run_analysis ttest_ind sem t_ppf c a
           start_year pre_years post_years w) = Ok tt)).
Proof.
  destruct (immunization (db w)) as [table|] eqn:Ht.
  - rewrite (run_analysis_run _ _ _ c a _ _ _ _ _ Ht). cbv zeta.
    destruct (select_series c a table) as [|o s];
      [|destruct (enough_data (o :: s) start_year pre_years post_years);
        [destruct (file_writable (env w) (out_csv c a));
         [destruct (file_writable (env w) (out_png c a))|]|]];
      cbn [fst snd db]; repeat split; auto; try discriminate;
      intros; discriminate.
  - assert (E : run_analysis ttest_ind sem t_ppf c a
                  start_year pre_years post_years w
                = (Err NoSuchTable, w)).
    { unfold run_analysis, queryCoverage, bind, get_db, raise.
      rewrite Ht. reflexivity. }
    rewrite E. cbn [fst snd]. repeat split; auto; congruence.
Qed.

(** X8: the batch entry point stops after the pipeline, leaving the world
    as the run left it, when a name is missing or empty, and when the run
    did not return [True] (the exception goes on to the caller). *)
Theorem X8_main_stops_after_run (args : Args) (df : DataFrame) (w : World) :
  truthy (arg_country args) && truthy (arg_antigen args) = false
  \/ fst (run_etl df w) <> Ok true ->
  snd (main ttest_ind sem t_ppf args df w) = snd (run_etl df w) /\
  fst (main ttest_ind sem t_ppf args df w)
  = match fst (run_etl df w) with
    | Ok _ => Ok tt
    | Err e => Err e
    end.
Proof.
  intros H. unfold main, bind.
  pose proof (run_etl_outcome df w) as Hcases.
  destruct (run_etl df w) as [[b|e] w1] eqn:E; cbn [fst snd] in *;
    [|auto].
  destruct H as [H | H]; [|destruct Hcases as [Hc | [e Hc]]; congruence].
  destruct (arg_country args) as [c0|], (arg_antigen args) as [a0|];
    try (split; reflexivity).
  rewrite H. split; reflexivity.
Qed.

End AnalysisFacts.

Lemma X6_unknown_label_finds_no_data_witness :
  fst (run_analysis stub_ttest_ind stub_sem stub_t_ppf
         "Sierra Leone" "dtp3" 2017 5 5
         (snd (run_etl sample_df empty_world))) = Ok tt /\
  printed (snd (run_etl sample_df empty_world))
    (snd (run_analysis stub_ttest_ind stub_sem stub_t_ppf
            "Sierra Leone" "dtp3" 2017 5 5
            (snd (run_etl sample_df empty_world))))
  = [MsgNoData "Sierra Leone" "dtp3"] /\
  files (snd (run_analysis stub_ttest_ind stub_sem stub_t_ppf
                "Sierra Leone" "dtp3" 2017 5 5
                (snd (run_etl sample_df empty_world))))
  = files empty_world.
Proof.
  apply (X6_unknown_label_finds_no_data stub_ttest_ind stub_sem stub_t_ppf
           sample_df empty_world "Sierra Leone" "dtp3" 2017 5 5).
  - vm_compute. reflexivity.
  - simpl. intros [H | [H | []]]; discriminate H.
Defined.

Lemma X8_main_stops_after_run_witness :
  snd (main stub_ttest_ind stub_sem stub_t_ppf
         {| arg_country := Some "Sierra Leone"; arg_antigen := Some "";
            arg_start_year := 2017; arg_pre_years := 5; arg_post_years := 5 |}
         sample_df empty_world)
  = snd (run_etl sample_df empty_world) /\
  fst (main stub_ttest_ind stub_sem stub_t_ppf
         {| arg_country := Some "Sierra Leone"; arg_antigen := Some "";
            arg_start_year := 2017; arg_pre_years := 5; arg_post_years := 5 |}
         sample_df empty_world)
  = match fst (run_etl sample_df empty_world) with
    | Ok _ => Ok tt
    | Err e => Err e
    end.
Proof.
  apply (X8_main_stops_after_run stub_ttest_ind stub_sem stub_t_ppf
           {| arg_country := Some "Sierra Leone"; arg_antigen := Some "";
              arg_start_year := 2017; arg_pre_years := 5;
              arg_post_years := 5 |} sample_df empty_world).
  left. reflexivity.
Defined.

(* ===================================================================== *)
(** * How many observations a window can hold *)
(* ===================================================================== *)

Lemma StronglySorted_filter {A : Type} (R : A -> A -> Prop)
      (f : A -> bool) (l : list A) :
  StronglySorted R l -> StronglySorted R (filter f l).
Proof.
  induction 1 as [|x l Hs IH Hall]; simpl; [constructor|].
  destruct (f x); [|assumption].
  constructor; [assumption|].
  rewrite Forall_forall in *. intros y Hy.
  apply filter_In in Hy as [Hy _]. auto.
Qed.

(** Distinct years inside [lo, hi] are at most [hi - lo + 1]. *)
Lemma sorted_span_length (s : Series) (lo hi : Z) :
  StronglySorted lt_year s ->
  Forall (fun o => lo <= fst o <= hi) s ->
  Z.of_nat (List.length s) <= Z.max 0 (hi - lo + 1).
Proof.
  intros Hs. revert lo. induction Hs as [|x s Hs IH Hall]; intros lo Hin.
  - simpl. lia.
  - inversion Hin as [|? ? Hx Hin']; subst.
    assert (Hs' : Forall (fun o => fst x + 1 <= fst o <= hi) s).
    { rewrite Forall_forall in *. intros o Ho.
      specialize (Hall o Ho). specialize (Hin' o Ho).
      unfold lt_year in Hall. lia. }
    specialize (IH (fst x + 1) Hs').
    rewrite length_cons, Nat2Z.inj_succ. lia.
Qed.

Lemma before_rows_bound (series : Series) (start_year pre_years : Z) :
  StronglySorted lt_year series ->
  Z.of_nat (List.length (before_rows series start_year pre_years))
  <= Z.max 0 pre_years.
Proof.
  intros Hs.
  replace pre_years
    with ((start_year - 1) - (start_year - pre_years) + 1) at 2 by lia.
  apply sorted_span_length.
  - apply StronglySorted_filter. assumption.
  - apply Forall_forall. intros [y v] Ho.
    apply In_before_rows in Ho. simpl. tauto.
Qed.

Lemma after_rows_bound (series : Series) (start_year post_years : Z) :
  StronglySorted lt_year series ->
  Z.of_nat (List.length (after_rows series start_year post_years))
  <= Z.max 0 (post_years + 1).
Proof.
  intros Hs.
  replace (post_years + 1)
    with ((start_year + post_years) - start_year + 1) by lia.
  apply sorted_span_length.
  - apply StronglySorted_filter. assumption.
  - apply Forall_forall. intros [y v] Ho.
    apply In_after_rows in Ho. simpl. tauto.
Qed.

Lemma window_bounds (table : list CoverageRecord) (c a : string)
      (start_year pre_years post_years : Z) :
  NoDup (map key table) ->
  Z.of_nat (List.length
              (before_rows (select_series c a table) start_year pre_years))
  <= Z.max 0 pre_years /\
  Z.of_nat (List.length
              (after_rows (select_series c a table) start_year post_years))
  <= Z.max 0 (post_years + 1).
Proof.
  intros Hnd. split.
  - apply before_rows_bound, select_series_strict, Hnd.
  - apply after_rows_bound, select_series_strict, Hnd.
Qed.

(** X9: for a series read from a table that keeps the primary key, the
    before window holds at most [pre_years] observations and the after
    window at most [post_years + 1] (none when the number is negative): the
    campaign year belongs to the after window. *)
Theorem X9_window_sizes (table : list CoverageRecord) (c a : string)
        (start_year pre_years post_years : Z) :
  NoDup (map key table) ->
  Z.of_nat (List.length
              (before_rows (select_series c a table) start_year pre_years))
  <= Z.max 0 pre_years /\
  Z.of_nat (List.length
              (after_rows (select_series c a table) start_year post_years))
  <= Z.max 0 (post_years + 1).
Proof.
  apply window_bounds.
Qed.

Section NarrowWindows.

Variable ttest_ind : list float -> list float -> float * float.
Variable sem : list float -> float.
Variable t_ppf : float -> Z -> float.

(** X10: with [pre_years <= 1] or [post_years <= 0] no series read from a
    table that keeps the primary key can be compared: the comparison is
    [InsufficientData], and the page shows the not-enough-data warning in
    place of the statistics. *)
Theorem X10_narrow_window_never_compares (table : list CoverageRecord)
        (c a : string) (start_year pre_years post_years : Z) :
  NoDup (map key table) ->
  pre_years <= 1 \/ post_years <= 0 ->
  compare ttest_ind sem t_ppf (select_series c a table)
          start_year pre_years post_years = InsufficientData /\
  statistics_block ttest_ind sem t_ppf (select_series c a table)
                   start_year pre_years post_years = [WNotEnough].
Proof.
  intros Hnd Hnarrow.
  destruct (window_bounds table c a start_year pre_years post_years Hnd)
    as [Hb Ha].
  assert (Hgate : enough_data (select_series c a table)
                    start_year pre_years post_years = false).
  { apply enough_data_spec. lia. }
  split.
  - rewrite compare_gate, Hgate. reflexivity.
  - unfold statistics_block. unfold enough_data in Hgate.
    rewrite length_before_vals, length_after_vals, Hgate. reflexivity.
Qed.

End NarrowWindows.

Lemma X9_window_sizes_witness :
  Z.of_nat (List.length
              (before_rows
                 (select_series "Sierra Leone" "coverage__dtp3"
                                (transform sample_df)) 2017 1))
  <= Z.max 0 1 /\
  Z.of_nat (List.length
              (after_rows
                 (select_series "Sierra Leone" "coverage__dtp3"
                                (transform sample_df)) 2017 1))
  <= Z.max 0 (1 + 1).
Proof.
  apply (X9_window_sizes (transform sample_df)
           "Sierra Leone" "coverage__dtp3" 2017 1 1).
  vm_compute.
  repeat (constructor;
          [ simpl; intros H;
            repeat (destruct H as [H | H]; [discriminate H|]); exact H | ]).
  constructor.
Defined.

Lemma X10_narrow_window_never_compares_witness :
  compare stub_ttest_ind stub_sem stub_t_ppf
    (select_series "Sierra Leone" "coverage__dtp3" (transform sample_df))
    2017 1 5 = InsufficientData /\
  statistics_block stub_ttest_ind stub_sem stub_t_ppf
    (select_series "Sierra Leone" "coverage__dtp3" (transform sample_df))
    2017 1 5 = [WNotEnough].
Proof.
  apply (X10_narrow_window_never_compares stub_ttest_ind stub_sem stub_t_ppf
           (transform sample_df) "Sierra Leone" "coverage__dtp3" 2017 1 5).
  - vm_compute.
    repeat (constructor;
            [ simpl; intros H;
              repeat (destruct H as [H | H]; [discriminate H|]); exact H | ]).
    constructor.
  - left. lia.
Defined.

(** Both windows can be full: two years before, campaign year and one
    after. *)
Example windows_full :
  List.length (before_rows scenario_series 2018 2) = 2%nat /\
  List.length (after_rows scenario_series 2018 1) = 2%nat.
Proof. split; reflexivity. Qed.

(* ===================================================================== *)
(** * File names *)
(* ===================================================================== *)

Lemma replace_length (old new : ascii) (s : string) :
  String.length (replace old new s) = String.length s.
Proof. induction s as [|ch s IH]; simpl; congruence. Qed.

Lemma replace_removes (old new : ascii) (s : string) :
  old <> new ->
  existsb (Ascii.eqb old) (list_ascii_of_string (replace old new s)) = false.
Proof.
  intros Hne. induction s as [|ch s IH]; simpl; [reflexivity|].
  rewrite IH, orb_false_r.
  destruct (Ascii.eqb_spec ch old) as [->|Hch].
  - apply Ascii.eqb_neq. assumption.
  - apply Ascii.eqb_neq. congruence.
Qed.

(** A text without the character is left as it is. *)
Lemma replace_absent (old new : ascii) (s : string) :
  existsb (Ascii.eqb old) (list_ascii_of_string s) = false ->
  replace old new s = s.
Proof.
  induction s as [|ch s IH]; simpl; [reflexivity|].
  intros H. apply orb_false_iff in H as [Hch Hs].
  rewrite Ascii.eqb_sym, Hch, (IH Hs). reflexivity.
Qed.

Lemma length_append (s1 s2 : string) :
  String.length (String.append s1 s2)
  = (String.length s1 + String.length s2)%nat.
Proof. induction s1 as [|ch s1 IH]; simpl; congruence. Qed.

(** X11: the names of the two artifacts of the batch and of the page's
    download contain no space and lose no character: each is as long as the
    country and the antigen together plus its fixed parts (14 characters);
    and a CSV and a plot never get the same name. *)
Theorem X11_file_names (c a : string) :
  has_space (out_csv c a) = false /\
  has_space (out_png c a) = false /\
  has_space (download_name c a) = false /\
  String.length (out_csv c a)
  = (14 + String.length c + String.length a)%nat /\
  String.length (out_png c a)
  = (10 + String.length c + String.length a)%nat /\
  String.length (download_name c a)
  = (14 + String.length c + String.length a)%nat /\
  out_csv c a <> out_png c a.
Proof.
  unfold has_space, out_csv, out_png, download_name.
  rewrite !replace_removes by discriminate.
  rewrite !replace_length, !length_append. simpl.
  repeat split; try lia. discriminate.
Qed.

(** Names without spaces go through unchanged. *)
Example out_csv_plain :
  out_csv "Ghana" "coverage__dtp3" = "coverage_Ghana_coverage__dtp3.csv".
Proof. reflexivity. Qed.

(* ===================================================================== *)
(** * The dashboard: what the select boxes offer *)
(* ===================================================================== *)

Section SortFacts.

Context {A : Type} (leb : A -> A -> bool).

Lemma insert_sorted_perm (x : A) (l : list A) :
  Permutation (insert_sorted leb x l) (x :: l).
Proof.
  induction l as [|y l IH]; simpl; [reflexivity|].
  destruct (leb x y); [reflexivity|].
  rewrite IH. apply perm_swap.
Qed.

Lemma sort_with_perm (l : list A) : Permutation (sort_with leb l) l.
Proof.
  induction l as [|x l IH]; simpl; [reflexivity|].
  rewrite insert_sorted_perm. constructor. assumption.
Qed.

Lemma In_sort_with (x : A) (l : list A) : In x (sort_with leb l) <-> In x l.
Proof.
  split; apply Permutation_in;
    [apply sort_with_perm | apply Permutation_sym, sort_with_perm].
Qed.

Hypothesis leb_total : forall x y, leb x y = false -> leb y x = true.
Hypothesis leb_trans :
  forall x y z, leb x y = true -> leb y z = true -> leb x z = true.

Lemma insert_sorted_sorted (x : A) (l : list A) :
  StronglySorted (fun a b => leb a b = true) l ->
  StronglySorted (fun a b => leb a b = true) (insert_sorted leb x l).
Proof.
  induction l as [|y l IH]; intros Hs; simpl.
  - constructor; constructor.
  - inversion Hs as [|? ? Hs' Hall]; subst.
    destruct (leb x y) eqn:E.
    + constructor; [assumption|]. constructor; [exact E|].
      eapply Forall_impl; [|exact Hall]. intros b Hb. eauto.
    + constructor; [apply IH; assumption|].
      apply Forall_forall. intros b Hb.
      apply (Permutation_in _ (insert_sorted_perm x l)) in Hb.
      destruct Hb as [<- | Hb]; [auto|].
      rewrite Forall_forall in Hall. auto.
Qed.

Lemma sort_with_sorted (l : list A) :
  StronglySorted (fun a b => leb a b = true) (sort_with leb l).
Proof.
  induction l as [|x l IH]; simpl; [constructor|].
  apply insert_sorted_sorted. assumption.
Qed.

End SortFacts.

Section DistinctFacts.

Context {A : Type} (eqb : A -> A -> bool).
Hypothesis eqb_eq : forall x y, eqb x y = true <-> x = y.

Lemma In_distinct (x : A) (l : list A) : In x (distinct eqb l) <-> In x l.
Proof.
  induction l as [|y l IH]; simpl; [tauto|].
  rewrite filter_In, IH. split.
  - intros [H | [H _]]; auto.
  - intros [H | H]; [auto|].
    destruct (eqb y x) eqn:E.
    + left. apply eqb_eq. assumption.
    + right. auto.
Qed.

Lemma NoDup_distinct (l : list A) : NoDup (distinct eqb l).
Proof.
  induction l as [|y l IH]; simpl; constructor.
  - intros H. apply filter_In in H as [_ H].
    assert (E : eqb y y = true) by (apply eqb_eq; reflexivity).
    rewrite E in H. discriminate.
  - apply NoDup_filter. assumption.
Qed.

End DistinctFacts.

Lemma string_compare_OT (s1 s2 : string) :
  String.compare s1 s2 = String_as_OT.compare s1 s2.
Proof.
  revert s2. induction s1 as [|a s1 IH]; destruct s2 as [|b s2]; simpl;
    reflexivity.
Qed.

Lemma string_leb_spec (s1 s2 : string) :
  String.leb s1 s2 = true <-> s1 = s2 \/ String_as_OT.lt s1 s2.
Proof.
  unfold String.leb. rewrite string_compare_OT.
  destruct (String_as_OT.compare_spec s1 s2) as [H|H|H]; split; auto.
  - discriminate.
  - intros [-> | H'].
    + exfalso. exact (StrictOrder_Irreflexive _ H).
    + exfalso. apply (StrictOrder_Irreflexive s1).
      exact (StrictOrder_Transitive _ _ _ H' H).
Qed.

Lemma string_leb_total (s1 s2 : string) :
  String.leb s1 s2 = false -> String.leb s2 s1 = true.
Proof.
  intros H. destruct (String.leb_total s1 s2) as [H'|H']; congruence.
Qed.

Lemma string_leb_trans (s1 s2 s3 : string) :
  String.leb s1 s2 = true -> String.leb s2 s3 = true ->
  String.leb s1 s3 = true.
Proof.
  rewrite !string_leb_spec. intros [-> | H1] [-> | H2]; auto.
  right. exact (StrictOrder_Transitive _ _ _ H1 H2).
Qed.

Lemma pair_eqb_eq (p q : string * string) : pair_eqb p q = true <-> p = q.
Proof.
  unfold pair_eqb. rewrite andb_true_iff, !String.eqb_eq.
  destruct p, q; simpl. split; [intros [-> ->]; reflexivity|].
  intros [= -> ->]. auto.
Qed.

(** The pairs of the metadata query are those of the rows of the table. *)
Lemma In_select_distinct_pairs (table : list CoverageRecord) (c a : string) :
  In (c, a) (select_distinct_pairs table) <->
  exists r, In r table /\ country r = c /\ antigen r = a.
Proof.
  unfold select_distinct_pairs.
  rewrite In_sort_with, (In_distinct pair_eqb pair_eqb_eq), in_map_iff.
  split.
  - intros [r [[= <- <-] Hr]]. eauto.
  - intros [r [Hr [<- <-]]]. eauto.
Qed.

Lemma In_countries (df_meta : list (string * string)) (c : string) :
  In c (countries df_meta) <-> exists a, In (c, a) df_meta.
Proof.
  unfold countries, sorted, unique.
  rewrite In_sort_with, (In_distinct String.eqb String.eqb_eq), in_map_iff.
  split.
  - intros [[c' a] [<- Hin]]. eauto.
  - intros [a Hin]. exists (c, a). auto.
Qed.

Lemma In_antigens (df_meta : list (string * string)) (c a : string) :
  In a (antigens df_meta (Some c)) <-> In (c, a) df_meta.
Proof.
  unfold antigens, sorted, unique.
  rewrite In_sort_with, (In_distinct String.eqb String.eqb_eq), in_map_iff.
  split.
  - intros [[c' a'] [<- Hin]]. apply filter_In in Hin as [Hin Hc].
    simpl in *. apply String.eqb_eq in Hc. subst. assumption.
  - intros Hin. exists (c, a). split; [reflexivity|].
    apply filter_In. split; [assumption|]. simpl. apply String.eqb_refl.
Qed.

(** X12: the country box offers exactly the countries that have a row in
    the table, and for a chosen country the antigen box offers exactly the
    antigens that have a row for it; so the series of any offered pair is
    not empty, and on an empty table both boxes are empty and so is the
    series. *)
Theorem X12_select_boxes_offer_what_has_data
        (table : list CoverageRecord) (c a : string) :
  (In c (countries (select_distinct_pairs table))
   <-> exists r, In r table /\ country r = c) /\
  (In a (antigens (select_distinct_pairs table) (Some c))
   <-> exists r, In r table /\ country r = c /\ antigen r = a) /\
  (In a (antigens (select_distinct_pairs table) (Some c)) ->
   dashboard_series table (Some c) (Some a) <> []) /\
  (table = [] ->
   countries (select_distinct_pairs table) = [] /\
   antigens (select_distinct_pairs table) None = [] /\
   dashboard_series table None None = []).
Proof.
  split; [|split; [|split]].
  - rewrite In_countries. split.
    + intros [a' H]. apply In_select_distinct_pairs in H as [r [Hr [Hc _]]].
      eauto.
    + intros [r [Hr Hc]]. exists (antigen r).
      apply In_select_distinct_pairs. eauto.
  - rewrite In_antigens. apply In_select_distinct_pairs.
  - intros H. apply In_antigens, In_select_distinct_pairs in H
      as [r [Hr [Hc Ha]]].
    simpl. intros E.
    assert (Hin : In (year r, sqlite_real (coverage_pct r))
                     (select_series c a table)).
    { apply In_select_series. exists (coverage_pct r).
      split; [|reflexivity]. subst c a. destruct r. exact Hr. }
    rewrite E in Hin. contradiction.
  - intros ->. repeat split.
Qed.

Lemma string_ltb_of_leb (s1 s2 : string) :
  String.leb s1 s2 = true -> s1 <> s2 -> String.ltb s1 s2 = true.
Proof.
  unfold String.leb, String.ltb. intros Hle Hne.
  destruct (String.compare s1 s2) eqn:E; try reflexivity; try discriminate.
  apply String.compare_eq_iff in E. contradiction.
Qed.

Lemma sorted_strings_strict (l : list string) :
  NoDup l -> StronglySorted (fun x y => String.ltb x y = true) (sorted l).
Proof.
  intros Hnd.
  assert (Hs : StronglySorted (fun x y => String.leb x y = true) (sorted l))
    by (apply sort_with_sorted;
        [exact string_leb_total | exact string_leb_trans]).
  assert (Hnd' : NoDup (sorted l))
    by (apply (Permutation_NoDup (Permutation_sym (sort_with_perm _ l)));
        exact Hnd).
  induction Hs as [|x s Hs IH Hall]; [constructor|].
  inversion Hnd' as [|? ? Hnotin Hnds]; subst.
  constructor; [auto|].
  rewrite Forall_forall in *. intros y Hy.
  apply string_ltb_of_leb; [auto|]. intros ->. contradiction.
Qed.

(** X13: the options of the country box, and those of the antigen box
    for any selection, are in strictly ascending order (by code point):
    sorted, and no name twice. *)
Theorem X13_options_strictly_ascending
        (df_meta : list (string * string)) (country : option string) :
  StronglySorted (fun x y => String.ltb x y = true) (countries df_meta) /\
  StronglySorted (fun x y => String.ltb x y = true)
                 (antigens df_meta country).
Proof.
  split.
  - apply sorted_strings_strict, NoDup_distinct, String.eqb_eq.
  - destruct country as [c|]; [|constructor].
    apply sorted_strings_strict, NoDup_distinct, String.eqb_eq.
Qed.

Lemma index_of_nth_error (c : string) (l : list string) (i : nat) :
  index_of c l = Some i -> nth_error l i = Some c.
Proof.
  revert i. induction l as [|x l IH]; intros i H; simpl in H; [discriminate|].
  destruct (String.eqb_spec c x) as [->|Hne].
  - injection H as <-. reflexivity.
  - destruct (index_of c l) as [j|]; [|discriminate].
    injection H as <-. simpl. auto.
Qed.

Lemma index_of_In (c : string) (l : list string) :
  In c l -> exists i, index_of c l = Some i.
Proof.
  induction l as [|x l IH]; intros H; [contradiction|]. simpl.
  destruct (String.eqb_spec c x) as [->|Hne]; [eauto|].
  destruct H as [-> | H]; [contradiction|].
  destruct (IH H) as [i ->]. simpl. eauto.
Qed.

(** X14: the default position of the country box is always a valid one:
    it is the place of "India" when India is among the options, and the
    first place otherwise. *)
Theorem X14_default_country (cs : list string) :
  (In "India" cs -> nth_error cs (default_country_index cs) = Some "India") /\
  (~ In "India" cs -> default_country_index cs = O) /\
  (cs <> [] -> (default_country_index cs < List.length cs)%nat).
Proof.
  unfold default_country_index.
  destruct (existsb (String.eqb "India") cs) eqn:E.
  - apply existsb_exists in E as [x [Hx Heq]].
    apply String.eqb_eq in Heq. subst x.
    destruct (index_of_In _ _ Hx) as [i Hi]. rewrite Hi.
    pose proof (index_of_nth_error _ _ _ Hi) as Hnth.
    repeat split; auto; [contradiction|].
    intros _. apply nth_error_Some. congruence.
  - assert (Hnot : ~ In "India" cs).
    { intros H. assert (existsb (String.eqb "India") cs = true); [|congruence].
      apply existsb_exists. exists "India". split; [assumption|].
      apply String.eqb_refl. }
    repeat split; auto; [contradiction|].
    intros H. destruct cs; [congruence | simpl; lia].
Qed.

(* ===================================================================== *)
(** * The dashboard: the flag and the page *)
(* ===================================================================== *)

Lemma decode_regional_indicator (code : list ascii) :
  map (fun z => ascii_of_N (Z.to_N (z - 0x1F1E6 + 65)))
      (map regional_indicator code) = code.
Proof.
  induction code as [|ch code IH]; simpl; [reflexivity|].
  rewrite IH. f_equal. unfold regional_indicator.
  change (Z.of_N (N_of_ascii "A")) with 65.
  replace (0x1F1E6 + Z.of_N (N_of_ascii ch) - 65 - 0x1F1E6 + 65)
    with (Z.of_N (N_of_ascii ch)) by lia.
  rewrite N2Z.id. apply ascii_N_embedding.
Qed.

Section DashboardFacts.

Variable ttest_ind : list float -> list float -> float * float.
Variable sem : list float -> float.
Variable t_ppf : float -> Z -> float.
Variable lookup_alpha_2 : string -> option string.

(** X15: for a country the lookup knows, the flag has one code point per
    letter of the two-letter code, the code can be read back from it (so
    different codes give different flags), and for a code of upper-case
    letters every code point is a regional indicator, U+1F1E6..U+1F1FF. *)
Theorem X15_flag_of_known_country (name code : string) :
  lookup_alpha_2 name = Some code ->
  List.length (country_to_flag lookup_alpha_2 name) = String.length code /\
  decode_flag (country_to_flag lookup_alpha_2 name) = code /\
  (forallb is_upper (list_ascii_of_string code) = true ->
   Forall (fun z => 0x1F1E6 <= z <= 0x1F1FF)
          (country_to_flag lookup_alpha_2 name)).
Proof.
  intros Hl. unfold country_to_flag, decode_flag. rewrite Hl.
  split; [|split].
  - rewrite length_map. clear Hl.
    induction code as [|ch code IH]; simpl; congruence.
  - rewrite decode_regional_indicator.
    apply string_of_list_ascii_of_string.
  - intros Hup. rewrite forallb_forall in Hup.
    apply Forall_forall. intros z Hz.
    apply in_map_iff in Hz as [ch [<- Hch]].
    specialize (Hup ch Hch). unfold is_upper in Hup.
    apply andb_true_iff in Hup as [H1 H2].
    apply N.leb_le in H1, H2. unfold regional_indicator.
    change (Z.of_N (N_of_ascii "A")) with 65. lia.
Qed.

(** X16: the page is empty exactly for an empty series; for any other
    series it offers the raw data and the download of the whole series
    under the sanitized name, whether or not the statistics could be
    computed; it shows the not-enough-data warning exactly when a window
    has fewer than 2 observations, and otherwise the t statistic, the p
    value, the means and the intervals of the batch comparison. *)
Theorem X16_page (country antigen : string) (series : Series)
        (campaign_start pre_years post_years : Z) :
  (render ttest_ind sem t_ppf lookup_alpha_2 country antigen series
          campaign_start pre_years post_years = [] <-> series = []) /\
  (series <> [] ->
   In (WRawData series)
      (render ttest_ind sem t_ppf lookup_alpha_2 country antigen series
              campaign_start pre_years post_years) /\
   In (WDownload (download_name country antigen) series)
      (render ttest_ind sem t_ppf lookup_alpha_2 country antigen series
              campaign_start pre_years post_years)) /\
  (In WNotEnough
      (render ttest_ind sem t_ppf lookup_alpha_2 country antigen series
              campaign_start pre_years post_years)
   <-> series <> [] /\
       compare ttest_ind sem t_ppf series campaign_start pre_years post_years
       = InsufficientData) /\
  (forall r,
     series <> [] ->
     compare ttest_ind sem t_ppf series campaign_start pre_years post_years
     = Computed r ->
     In (WTStatistic (t_stat r))
        (render ttest_ind sem t_ppf lookup_alpha_2 country antigen series
                campaign_start pre_years post_years) /\
     In (WPValue (p_val r))
        (render ttest_ind sem t_ppf lookup_alpha_2 country antigen series
                campaign_start pre_years post_years) /\
     In (WBarChart (avg_before r) (avg_after r) (ci_before r) (ci_after r))
        (render ttest_ind sem t_ppf lookup_alpha_2 country antigen series
                campaign_start pre_years post_years)).
Proof.
  assert (Hblock :
    statistics_block ttest_ind sem t_ppf series
                     campaign_start pre_years post_years
    = match compare ttest_ind sem t_ppf series
                    campaign_start pre_years post_years with
      | Computed r =>
          [ WTStatistic (t_stat r); WPValue (p_val r);
            (if (p_val r <? 0.05)%float
             then WSignificant else WNotSignificant);
            WSubheader "Average Coverage Before vs After (with 95% CI)";
            WBarChart (avg_before r) (avg_after r)
                      (ci_before r) (ci_after r);
            (if (0 <=? diff r)%float then WIncreased (diff r)
             else WDecreased (abs (diff r))) ]
      | InsufficientData => [WNotEnough]
      end).
  { unfold statistics_block, compare.
    destruct ((1 <? _)%nat && (1 <? _)%nat); reflexivity. }
  unfold render. rewrite Hblock. clear Hblock.
  destruct series as [|o s].
  - split; [tauto|]. split; [congruence|]. split.
    + split; [contradiction | intros [H _]; congruence].
    + intros r H. congruence.
  - split; [split; discriminate|].
    destruct (compare ttest_ind sem t_ppf (o :: s)
                      campaign_start pre_years post_years) as [r|].
    + split; [intros _; simpl; auto 20|]. split.
      * split; [|intros [_ H]; discriminate H].
        simpl. intros H.
        repeat (destruct H as [H | H]; [try discriminate H|]);
          try contradiction.
        -- destruct (p_val r <? 0.05)%float; discriminate H.
        -- destruct (0 <=? diff r)%float; discriminate H.
      * intros r' _ [= <-]. simpl. auto 20.
    + split; [intros _; simpl; auto 20|]. split.
      * split; [intros _; split; [discriminate | reflexivity]|].
        intros _. simpl. auto 20.
      * intros r' _ H. discriminate H.
Qed.

End DashboardFacts.

Lemma X15_flag_of_known_country_witness :
  List.length (country_to_flag stub_lookup "India") = String.length "IN" /\
  decode_flag (country_to_flag stub_lookup "India") = "IN" /\
  (forallb is_upper (list_ascii_of_string "IN") = true ->
   Forall (fun z => 0x1F1E6 <= z <= 0x1F1FF)
          (country_to_flag stub_lookup "India")).
Proof.
  apply (X15_flag_of_known_country stub_lookup "India" "IN").
  reflexivity.
Defined.

(** The flag of India is U+1F1EE U+1F1F3; an unknown name gets the white
    flag. *)
Example flag_examples :
  country_to_flag stub_lookup "India" = [0x1F1EE; 0x1F1F3] /\
  country_to_flag stub_lookup "Atlantis" = WHITE_FLAG.
Proof. split; reflexivity. Qed.

(** What the boxes offer for the sample, and the page of a pair whose
    before window is too small. *)
Example boxes_sample :
  countries (select_distinct_pairs (transform sample_df)) = ["Sierra Leone"] /\
  antigens (select_distinct_pairs (transform sample_df)) (Some "Sierra Leone")
  = ["coverage__dtp3"; "coverage__mcv1"].
Proof. vm_compute. split; reflexivity. Qed.

Example page_not_enough :
  render stub_ttest_ind stub_sem stub_t_ppf stub_lookup
         "Sierra Leone" "coverage__mcv1"
         [ (2015, 76%float); (2017, 80%float); (2018, 81%float) ] 2017 5 5
  = [ WCountry "Sierra Leone" [0x1F1F8; 0x1F1F1];
      WSubheader "Coverage Over Time (Interactive)";
      WCoverageChart "Sierra Leone" "coverage__mcv1"
        [ (2015, 76%float); (2017, 80%float); (2018, 81%float) ] 2017 5 5;
      WSubheader "Statistical Test (t-test)";
      WNotEnough;
      WSubheader "Raw Data";
      WRawData [ (2015, 76%float); (2017, 80%float); (2018, 81%float) ];
      WDownload "Sierra_Leone_coverage__mcv1_coverage.csv"
        [ (2015, 76%float); (2017, 80%float); (2018, 81%float) ] ].
Proof. vm_compute. reflexivity. Qed.

(** X17: the [run_etl] that streamlit_app.py defines again does to the
    database what the pipeline's does and ends the same way, from any
    state; it touches no file and prints nothing. *)
Theorem X17_dashboard_run_etl_agrees (df : DataFrame) (w : World) :
  fst (st_run_etl df w) = fst (run_etl df w) /\
  db (snd (st_run_etl df w)) = db (snd (run_etl df w)) /\
  files (snd (st_run_etl df w)) = files w /\
  console (snd (st_run_etl df w)) = console w.
Proof.
  rewrite run_etl_run.
  unfold st_run_etl, to_sql_replace_raw, to_sql_append, create_table,
    drop_table_if_exists, bind, get_db, get_env, put_db, raise, ret. simpl.
  destruct (raw_write (env w) df); simpl;
    [destruct (insert_rows (transform df) []); simpl|]; auto.
Qed.

(* ===================================================================== *)
(** * Examples: what the environment decides, and the order of a sum *)
(* ===================================================================== *)

(** A country name with a path separator: the statistics are printed, then
    [to_csv] raises, and no file is written. *)
Example main_path_separator :
  let out := main stub_ttest_ind stub_sem stub_t_ppf
               (sample_args "A/B" "coverage__dtp3") slash_df
               {| env := strict_env; db := empty_db;
                  files := []; console := [] |} in
  fst out = Err FileWriteError /\ files (snd out) = [] /\
  List.length (console (snd out)) = 6%nat.
Proof. vm_compute. repeat split. Qed.

(** A frame the raw write refuses: the run raises before DROP and CREATE,
    table [immunization] is as it was, and here the old raw table is lost. *)
Example run_etl_raw_refused :
  let out := run_etl {| columns := []; rows := [] |}
               {| env := strict_env; db := db loaded_world;
                  files := []; console := [] |} in
  fst out = Err RawWriteError /\
  immunization (db (snd out)) = Some (transform sample_df) /\
  owid_raw (db (snd out)) = None.
Proof. vm_compute. repeat split. Qed.

(** Nine values: numpy adds the first eight pairwise and then the ninth,
    which is not the sum from left to right. *)
Example sum_of_nine :
  np_sum nine_values = 10000000000000008%float /\
  fold_left PrimFloat.add nine_values 0%float = 1e16%float.
Proof. vm_compute. split; reflexivity. Qed.

(** A negative zero in the table is read back as +0.0. *)
Example query_negative_zero :
  select_series "Ghana" "coverage__dtp3" negative_zero_table
  = [(2000, 0%float)].
Proof. vm_compute. reflexivity. Qed.

Lemma X19_refused_file_name_witness :
  (file_writable (env strict_world) (out_csv "A/B" "coverage__dtp3") = false ->
   fst (main stub_ttest_ind stub_sem stub_t_ppf
          (sample_args "A/B" "coverage__dtp3") slash_df strict_world)
   = Err FileWriteError /\
   files (snd (main stub_ttest_ind stub_sem stub_t_ppf
                 (sample_args "A/B" "coverage__dtp3") slash_df strict_world))
   = files strict_world /\
   exists r,
     printed (snd (run_etl slash_df strict_world))
       (snd (main stub_ttest_ind stub_sem stub_t_ppf
               (sample_args "A/B" "coverage__dtp3") slash_df strict_world))
     = [ MsgAnalysis "A/B" "coverage__dtp3" (2017 - 5) (2017 - 1) 2017
           (2017 + 5);
         MsgStatistics r ]) /\
  (file_writable (env strict_world) (out_csv "A/B" "coverage__dtp3") = true ->
   file_writable (env strict_world) (out_png "A/B" "coverage__dtp3") = false ->
   fst (main stub_ttest_ind stub_sem stub_t_ppf
          (sample_args "A/B" "coverage__dtp3") slash_df strict_world)
   = Err FileWriteError /\
   read_file (out_csv "A/B" "coverage__dtp3")
     (snd (main stub_ttest_ind stub_sem stub_t_ppf
             (sample_args "A/B" "coverage__dtp3") slash_df strict_world))
   = Some (CsvFile (select_series "A/B" "coverage__dtp3"
                      (transform slash_df))) /\
   read_file (out_png "A/B" "coverage__dtp3")
     (snd (main stub_ttest_ind stub_sem stub_t_ppf
             (sample_args "A/B" "coverage__dtp3") slash_df strict_world))
   = read_file (out_png "A/B" "coverage__dtp3") strict_world).
Proof.
  apply (X19_refused_file_name stub_ttest_ind stub_sem stub_t_ppf
           (sample_args "A/B" "coverage__dtp3") slash_df strict_world
           "A/B" "coverage__dtp3").
  - reflexivity.
  - reflexivity.
  - discriminate.
  - discriminate.
  - vm_compute. reflexivity.
  - vm_compute. reflexivity.
Defined.

(** X18: a download that is fetched and read goes through the steps of
    [run_etl] on its frame; one that cannot be fetched, cannot be read, or
    lacks the identifier columns makes the run raise before the database is
    opened: tables and files are as they were and the load line is never
    printed. *)
Theorem X18_failed_download_touches_nothing (d : Download) (w : World) :
  (forall df, run_etl_from (Parsed df) w = run_etl df w) /\
  ((forall df, d <> Parsed df) ->
   (exists e, fst (run_etl_from d w) = Err e) /\
   db (snd (run_etl_from d w)) = db w /\
   files (snd (run_etl_from d w)) = files w /\
   ~ In MsgLoad (printed w (snd (run_etl_from d w)))).
Proof.
  split; [reflexivity|].
  intros Hd. destruct d as [| | |df]; [| | |exfalso; exact (Hd df eq_refl)];
    unfold run_etl_from, print, bind, raise; cbn [fst snd db files console];
    rewrite <- ?app_assoc; rewrite printed_app;
    (split; [eexists; reflexivity|]); repeat split;
    simpl; intros H;
    repeat (destruct H as [H | H]; [discriminate H|]); exact H.
Qed.
